(** * contentforge: version store, review queue and research phase

    A shallow embedding of the parts of the repository that keep content
    versions (src/models/content_models.py, src/storage/version_manager.py),
    run the human review queue (src/agents/human_interface.py) and drive the
    research phase (src/workflow/publication_workflow.py), with the
    properties of these operations stated and proved over the embedding. *)

From Stdlib Require Import QArith DecimalString DecimalZ.
From stdpp Require Import gmap strings list fin_maps sorting.

Set Warnings "-register-all".
Close Scope Q_scope.
Open Scope string_scope.

(** ** Python values and builtins *)

(** A naive [datetime] is a point of a timeline with microsecond resolution:
    the difference of two datetimes is a [timedelta], a whole number of
    microseconds, and datetimes are ordered as their offsets are. *)
Definition datetime := Z.

(** A [uuid.UUID] is the number it was made from; [uuid.uuid4()] draws one at
    random, so every function that calls it takes the number drawn as an
    argument. *)
Definition UUID := N.

Module ContentStatus.
Inductive t :=
  | SCRAPED | AI_WRITTEN | AI_REVIEWED | HUMAN_REVIEW
  | HUMAN_EDITED | FINALIZED | PUBLISHED.

Definition value (s : t) : string :=
  match s with
  | SCRAPED => "scraped"
  | AI_WRITTEN => "ai_written"
  | AI_REVIEWED => "ai_reviewed"
  | HUMAN_REVIEW => "human_review"
  | HUMAN_EDITED => "human_edited"
  | FINALIZED => "finalized"
  | PUBLISHED => "published"
  end.

Definition members : list t :=
  [SCRAPED; AI_WRITTEN; AI_REVIEWED; HUMAN_REVIEW; HUMAN_EDITED; FINALIZED;
   PUBLISHED].

(** [ContentStatus(s)]: the member whose value is [s]; [None] stands for
    the [ValueError] Python raises when there is none. *)
Definition of_value (s : string) : option t :=
  find (λ m, bool_decide (value m = s)) members.
End ContentStatus.

Module AgentType.
Inductive t :=
  | SCRAPER | AI_WRITER | AI_REVIEWER | HUMAN_WRITER | HUMAN_REVIEWER
  | HUMAN_EDITOR | SYSTEM.

Definition value (a : t) : string :=
  match a with
  | SCRAPER => "scraper"
  | AI_WRITER => "ai_writer"
  | AI_REVIEWER => "ai_reviewer"
  | HUMAN_WRITER => "human_writer"
  | HUMAN_REVIEWER => "human_reviewer"
  | HUMAN_EDITOR => "human_editor"
  | SYSTEM => "system"
  end.

Definition members : list t :=
  [SCRAPER; AI_WRITER; AI_REVIEWER; HUMAN_WRITER; HUMAN_REVIEWER;
   HUMAN_EDITOR; SYSTEM].

Definition of_value (s : string) : option t :=
  find (λ m, bool_decide (value m = s)) members.
End AgentType.

(** The Python objects that travel through metadata dictionaries and through
    the [id] argument of the [ContentVersion] constructor. Floats are left
    out; dictionaries are keyed by strings, as every metadata dictionary of
    the repository is. *)
Inductive pyval :=
  | PNone
  | PBool (b : bool)
  | PInt (z : Z)
  | PStr (s : string)
  | PDatetime (d : datetime)
  | PStatus (s : ContentStatus.t)
  | PAgent (a : AgentType.t)
  | PList (l : list pyval)
  | PDict (m : gmap string pyval).

(** Truth value of an object, as [not x] and [if x] test it. *)
Definition truthy (v : pyval) : bool :=
  match v with
  | PNone => false
  | PBool b => b
  | PInt z => negb (z =? 0)%Z
  | PStr s => negb (String.eqb s "")
  | PDatetime _ | PStatus _ | PAgent _ => true
  | PList l => negb (bool_decide (l = []))
  | PDict m => negb (bool_decide (m = ∅))
  end.

(** Truth value of a [str]: false exactly for the empty string. *)
Definition nonempty (s : string) : bool := negb (String.eqb s "").

(** The functions of the Python runtime the code calls and the laws of
    theirs the proofs use: [datetime.isoformat] and [datetime.fromisoformat]
    (the second reads back what the first writes), the builtin [str] (the
    identity on a [str], and never empty on an object that is true),
    [str] of a UUID (36 characters, so never empty) and
    [hashlib.md5(..).hexdigest()]. *)
Class PyBuiltins := {
  isoformat : datetime → string;
  fromisoformat : string → option datetime;
  fromisoformat_isoformat d : fromisoformat (isoformat d) = Some d;
  py_str : pyval → string;
  py_str_PStr s : py_str (PStr s) = s;
  py_str_truthy v : truthy v = true → py_str v ≠ "";
  uuid_str : UUID → string;
  uuid_str_nonempty u : uuid_str u ≠ "";
  md5_hexdigest : string → string
}.

(** ** src/models/content_models.py *)

Module ContentVersion.
Record t := mk {
  id : string;
  chapter_id : string;
  content : string;
  status : ContentStatus.t;
  agent_type : AgentType.t;
  metadata : gmap string pyval;
  created_at : datetime;
  parent_version_id : option string
}.

Definition set_status (st : ContentStatus.t) (v : t) : t :=
  mk (id v) (chapter_id v) (content v) st (agent_type v) (metadata v)
     (created_at v) (parent_version_id v).
End ContentVersion.

Section content_models.
Context `{PyBuiltins}.

(** [ContentVersion._make_serializable] *)
Fixpoint _make_serializable (data : pyval) : pyval :=
  match data with
  | PDict m => PDict (_make_serializable <$> m)
  | PList l => PList (_make_serializable <$> l)
  | PDatetime d => PStr (isoformat d)
  | PStatus s => PStr (ContentStatus.value s)
  | PAgent a => PStr (AgentType.value a)
  | _ => data
  end.

(** The dataclass constructor followed by [__post_init__]. [uuid4] is the
    UUID [__post_init__] draws, which it does only when [id] is false; the
    [id] argument is any object, the other arguments have their annotated
    types. *)
Definition ContentVersion_init (uuid4 : UUID) (id : pyval)
    (chapter_id content : string) (status : ContentStatus.t)
    (agent_type : AgentType.t) (metadata : gmap string pyval)
    (created_at : datetime) (parent_version_id : option string)
    : ContentVersion.t :=
  let id := if negb (truthy id) then PStr (uuid_str uuid4) else id in
  let id := match id with PStr s => s | _ => py_str id end in
  ContentVersion.mk id chapter_id content status agent_type
    (_make_serializable <$> metadata) created_at parent_version_id.

(** [ContentVersion.get_content_hash] *)
Definition get_content_hash (v : ContentVersion.t) : string :=
  md5_hexdigest (ContentVersion.content v).

Definition is_PStr (v : pyval) : bool :=
  match v with PStr _ => true | _ => false end.
End content_models.

(** ** src/config.py *)

Module Config.
Definition SIMILARITY_THRESHOLD : Q := 8 # 10.
Definition MAX_SEARCH_RESULTS : nat := 5.
End Config.

(** ** The ChromaDB collection behind the version manager

    A collection maps record ids to a document and a flat metadata
    dictionary of strings and integers. [add] of an id the collection
    already holds leaves the collection as it is and raises nothing,
    [delete] of an absent id does nothing and raises nothing, and [get]
    by id returns nothing for an absent id (the behaviour of the
    [PersistentClient] releases, which the version manager constructs). *)

Module Chroma.
Inductive value :=
  | Str (s : string)
  | Int (z : Z).

Global Instance value_eq_dec : EqDecision value.
Proof. solve_decision. Defined.

Record record := mk {
  document : string;
  metadata : gmap string value
}.

Definition add (id : string) (r : record) (c : gmap string record)
    : gmap string record :=
  match c !! id with
  | Some _ => c
  | None => <[id := r]> c
  end.

(** [get(where={key: s})], in the enumeration order of the map (Chroma
    leaves the order of its answer open). *)
Definition get_where (key s : string) (c : gmap string record)
    : list record :=
  filter (λ r, metadata r !! key = Some (Str s)) (snd <$> map_to_list c).

(** The answer of [collection.query] for one query text: per query, the
    documents found, their metadata and their distances to the query. *)
Record query_result := mk_query_result {
  documents : list (list string);
  metadatas : list (list (gmap string value));
  distances : option (list (list Q))
}.
End Chroma.

Abbreviation collection := (gmap string Chroma.record).

(** ** Store computations

    A method of the version manager runs against the collection, returns a
    value and leaves a collection behind. [trace] lists the collection as it
    stands after each write the method performs, oldest first: these are the
    states another reader of the collection can observe while the method
    runs. *)

Record outcome (A : Type) := Outcome {
  result : A;
  final : collection;
  trace : list collection
}.
Arguments Outcome {A} _ _ _.
Arguments result {A} _.
Arguments final {A} _.
Arguments trace {A} _.

Definition Store (A : Type) : Type := collection → outcome A.

Global Instance Store_ret : MRet Store := λ A x c, Outcome x c [].
Global Instance Store_bind : MBind Store := λ A B f m c,
  let r1 := m c in
  let r2 := f (result r1) (final r1) in
  Outcome (result r2) (final r2) (trace r1 ++ trace r2).

Definition store_read {A} (f : collection → A) : Store A :=
  λ c, Outcome (f c) c [].
Definition store_write (f : collection → collection) : Store unit :=
  λ c, Outcome () (f c) [f c].

(** ** src/storage/version_manager.py *)

Fixpoint string_drop (n : nat) (s : string) : string :=
  match n, s with
  | S n, String _ s => string_drop n s
  | _, _ => s
  end.

(** [sorted(l, key)]: Python's sort is stable. *)
Section sort_by_key.
Context {A : Type} (key : A → Z).

Fixpoint insert_by_key (x : A) (l : list A) : list A :=
  match l with
  | [] => [x]
  | y :: l' =>
      if (key x <=? key y)%Z then x :: y :: l' else y :: insert_by_key x l'
  end.

Definition sort_by_key (l : list A) : list A :=
  foldr insert_by_key [] l.
End sort_by_key.

(** A node of the dictionary [get_version_tree] returns: the entry of a
    version carries its status, agent, creation time and content length, the
    entry made for a parent id that is no key yet carries the id alone. *)
Record version_fields := mk_version_fields {
  vf_status : string;
  vf_agent_type : string;
  vf_created_at : string;
  vf_content_length : nat
}.

Inductive tree_node :=
  | TreeNode (id : string) (info : option version_fields)
             (children : list tree_node).

(** [node['children'].append(child)] *)
Definition append_child (child : tree_node) (n : tree_node) : tree_node :=
  match n with
  | TreeNode id info children => TreeNode id info (children ++ [child])
  end.

(** How often an id occurs as a node of a tree. *)
Fixpoint node_occurrences (id : string) (n : tree_node) : nat :=
  match n with
  | TreeNode i _ children =>
      (if bool_decide (i = id) then 1 else 0)
      + sum_list (node_occurrences id <$> children)
  end.

Definition tree_occurrences (id : string) (tree : gmap string tree_node)
    : nat :=
  map_fold (λ _ n acc, node_occurrences id n + acc) 0 tree.

Section version_manager.
Context `{PyBuiltins}.

(** The value stored under [meta_<key>]. *)
Definition stored_meta (value : pyval) : Chroma.value :=
  match value with
  | PDatetime d => Chroma.Str (isoformat d)
  | _ => Chroma.Str (py_str value)
  end.

(** The metadata dictionary [save_version] hands to the collection. *)
Definition chroma_metadata (version : ContentVersion.t)
    : gmap string Chroma.value :=
  kmap (String.append "meta_") (stored_meta <$> ContentVersion.metadata version)
  ∪ list_to_map [
      ("version_id", Chroma.Str (ContentVersion.id version));
      ("chapter_id", Chroma.Str (ContentVersion.chapter_id version));
      ("status",
        Chroma.Str (ContentStatus.value (ContentVersion.status version)));
      ("agent_type",
        Chroma.Str (AgentType.value (ContentVersion.agent_type version)));
      ("created_at",
        Chroma.Str (isoformat (ContentVersion.created_at version)));
      ("parent_version_id",
        Chroma.Str (default "" (ContentVersion.parent_version_id version)));
      ("content_length",
        Chroma.Int (Z.of_nat (String.length (ContentVersion.content version))));
      ("content_hash", Chroma.Str (get_content_hash version))
    ].

Definition chroma_record (version : ContentVersion.t) : Chroma.record :=
  Chroma.mk (ContentVersion.content version) (chroma_metadata version).

Definition save_version (version : ContentVersion.t) : Store bool :=
  if negb (nonempty (ContentVersion.id version))
     || negb (nonempty (ContentVersion.chapter_id version))
  then mret false
  else if negb (nonempty (ContentVersion.content version))
  then mret false
  else
    store_write
      (Chroma.add (ContentVersion.id version) (chroma_record version));;
    mret true.

Definition value_to_py (v : Chroma.value) : pyval :=
  match v with
  | Chroma.Str s => PStr s
  | Chroma.Int z => PInt z
  end.

Definition as_str (v : Chroma.value) : option string :=
  match v with
  | Chroma.Str s => Some s
  | Chroma.Int _ => None
  end.

(** The loop that rebuilds a version's metadata from the stored keys that
    start with [meta_]. *)
Definition version_metadata (metadata : gmap string Chroma.value)
    : gmap string pyval :=
  map_fold
    (λ key value acc,
       if String.prefix "meta_" key
       then <[string_drop 5 key := value_to_py value]> acc
       else acc)
    ∅ metadata.

(** The [ContentVersion(...)] call shared by [get_version],
    [get_chapter_versions] and [search_similar_content]. [None] stands
    for an exception ([KeyError] for a missing key, [ValueError] for an
    unknown status or agent or a malformed date); a chapter id or a
    non-empty parent id that is no string is outside the typed record and
    is treated the same way ([save_version] writes strings there). *)
Definition reconstruct (uuid4 : UUID) (content : string)
    (metadata : gmap string Chroma.value) : option ContentVersion.t :=
  let field (key : string) : option Chroma.value := metadata !! key in
  let str_field (key : string) : option string := field key ≫= as_str in
  id ← field "version_id";
  chapter_id ← str_field "chapter_id";
  status ← str_field "status" ≫= ContentStatus.of_value;
  agent_type ← str_field "agent_type" ≫= AgentType.of_value;
  created_at ← str_field "created_at" ≫= fromisoformat;
  parent ← field "parent_version_id";
  parent_version_id ←
    (if truthy (value_to_py parent) then Some <$> as_str parent
     else Some None);
  Some (ContentVersion_init uuid4 (value_to_py id) chapter_id content status
          agent_type (version_metadata metadata) created_at
          parent_version_id).

(** [uuid4] is the UUID [__post_init__] would draw for a record whose
    stored [version_id] is empty. *)
Definition get_version (uuid4 : UUID) (version_id : string)
    : Store (option ContentVersion.t) :=
  found ← store_read (λ c, c !! version_id);
  mret (match found with
        | None => None
        | Some r =>
            if negb (nonempty (Chroma.document r)) then None
            else reconstruct uuid4 (Chroma.document r) (Chroma.metadata r)
        end).

Definition get_chapter_versions (uuid4 : UUID) (chapter_id : string)
    : Store (list ContentVersion.t) :=
  found ← store_read (Chroma.get_where "chapter_id" chapter_id);
  mret (match
          mapM (λ r, reconstruct uuid4 (Chroma.document r)
                       (Chroma.metadata r)) found
        with
        | Some versions => sort_by_key ContentVersion.created_at versions
        | None => []
        end).

Definition version_info (version : ContentVersion.t) : tree_node :=
  TreeNode (ContentVersion.id version)
    (Some (mk_version_fields
             (ContentStatus.value (ContentVersion.status version))
             (AgentType.value (ContentVersion.agent_type version))
             (isoformat (ContentVersion.created_at version))
             (String.length (ContentVersion.content version))))
    [].

(** One iteration of the loop of [get_version_tree]. *)
Definition tree_step (tree : gmap string tree_node)
    (version : ContentVersion.t) : gmap string tree_node :=
  match ContentVersion.parent_version_id version with
  | Some parent =>
      if nonempty parent then
        let tree :=
          match tree !! parent with
          | Some _ => tree
          | None => <[parent := TreeNode parent None []]> tree
          end in
        alter (append_child (version_info version)) parent tree
      else <[ContentVersion.id version := version_info version]> tree
  | None => <[ContentVersion.id version := version_info version]> tree
  end.

Definition get_version_tree (uuid4 : UUID) (chapter_id : string)
    : Store (gmap string tree_node) :=
  versions ← get_chapter_versions uuid4 chapter_id;
  mret (foldl tree_step ∅ versions).

Definition update_version_status (uuid4 : UUID) (version_id : string)
    (new_status : ContentStatus.t) : Store bool :=
  version ← get_version uuid4 version_id;
  match version with
  | None => mret false
  | Some version =>
      let version := ContentVersion.set_status new_status version in
      store_write (delete version_id);;
      save_version version
  end.

Definition delete_version (version_id : string) : Store bool :=
  store_write (delete version_id);;
  mret true.

Definition Qltb (x y : Q) : bool := negb (Qle_bool y x).

Section search.
Variables (uuid4 : UUID) (results : Chroma.query_result).

(** The loop over [results['documents'][0]], from index [i] on. [None]
    stands for an exception, which ends the whole search. *)
Fixpoint similar_from (i : nat) (docs : list string)
    : option (list (ContentVersion.t * Q)) :=
  match docs with
  | [] => Some []
  | doc :: docs =>
      metadata ← Chroma.metadatas results !! 0%nat ≫= (.!! i);
      distance ←
        match Chroma.distances results with
        | Some (d :: ds) => (d :: ds) !! 0%nat ≫= (.!! i)
        | _ => Some 1%Q
        end;
      let similarity := (1 - distance)%Q in
      if Qltb similarity (1 - Config.SIMILARITY_THRESHOLD)%Q
      then similar_from (S i) docs
      else
        version ← reconstruct uuid4 doc metadata;
        rest ← similar_from (S i) docs;
        Some ((version, similarity) :: rest)
  end.

(** [search_similar_content], given what [collection.query] answered. *)
Definition search_similar_content : list (ContentVersion.t * Q) :=
  match Chroma.documents results with
  | (doc :: docs) :: _ => default [] (similar_from 0 (doc :: docs))
  | _ => []
  end.
End search.

(** *** Notions used to state what the store keeps *)

(** The record of [id] is there in every state of a trace. *)
Definition never_absent (id : string) (states : list collection) : Prop :=
  Forall (λ c, is_Some (c !! id)) states.

(** A version [save_version] accepts. *)
Definition valid (v : ContentVersion.t) : Prop :=
  ContentVersion.id v ≠ "" ∧ ContentVersion.chapter_id v ≠ ""
  ∧ ContentVersion.content v ≠ "".

(** What [get_version] makes of a metadata value written by
    [save_version]: the string it was stored as. *)
Definition read_back (value : pyval) : pyval :=
  value_to_py (stored_meta value).

(** The stores [save_version] builds: every record is the record of a
    version it accepted, kept under that version's id. *)
Definition store_wf (c : collection) : Prop :=
  ∀ id r, c !! id = Some r →
    ∃ v, valid v ∧ ContentVersion.id v = id ∧ r = chroma_record v.

(** The version [get_version] rebuilds from the record of [v]. *)
Definition stored_version (v : ContentVersion.t) : ContentVersion.t :=
  ContentVersion.mk (ContentVersion.id v) (ContentVersion.chapter_id v)
    (ContentVersion.content v) (ContentVersion.status v)
    (ContentVersion.agent_type v) (read_back <$> ContentVersion.metadata v)
    (ContentVersion.created_at v)
    (ContentVersion.parent_version_id v
       ≫= λ p, if nonempty p then Some p else None).
End version_manager.

(** ** src/agents/human_interface.py *)

Module ReviewRequest.
Record t := mk {
  id : string;
  chapter_id : string;
  version : ContentVersion.t;
  review_type : string;
  submitted_at : datetime;
  status : string;
  reviewer_notes : string
}.

Definition set_status (st : string) (r : t) : t :=
  mk (id r) (chapter_id r) (version r) (review_type r) (submitted_at r) st
     (reviewer_notes r).
Definition set_reviewer_notes (notes : string) (r : t) : t :=
  mk (id r) (chapter_id r) (version r) (review_type r) (submitted_at r)
     (status r) notes.
End ReviewRequest.

(** The two dictionaries of a [HumanReviewInterface]. *)
Record HumanReviewInterface := mk_interface {
  pending_reviews : gmap string ReviewRequest.t;
  completed_reviews : gmap string ReviewRequest.t
}.

(** The dictionary [get_review_details] returns. *)
Record version_summary := mk_version_summary {
  vs_version_id : string;
  vs_status : string;
  vs_agent_type : string;
  vs_created_at : string;
  vs_content_length : nat;
  vs_content_preview : string
}.

Record review_details := mk_review_details {
  rd_review_id : string;
  rd_chapter_id : string;
  rd_review_type : string;
  rd_status : string;
  rd_submitted_at : string;
  rd_version_info : version_summary;
  rd_reviewer_notes : string
}.

(** An optional [str] filter is applied when it is given and not empty. *)
Definition filter_given (f : option string) : bool :=
  match f with
  | Some s => nonempty s
  | None => false
  end.

Section human_interface.
Context `{PyBuiltins}.

Definition HumanReviewInterface_init : HumanReviewInterface :=
  mk_interface ∅ ∅.

Definition submit_for_human_review (uuid4 : UUID) (now : datetime)
    (chapter_id : string) (version : ContentVersion.t)
    (review_type priority : string) (self : HumanReviewInterface)
    : string * HumanReviewInterface :=
  let review_id := uuid_str uuid4 in
  let review_request :=
    ReviewRequest.mk review_id chapter_id version review_type now "pending"
      "" in
  (review_id,
   mk_interface (<[review_id := review_request]> (pending_reviews self))
     (completed_reviews self)).

Definition get_pending_reviews (chapter_id review_type : option string)
    (self : HumanReviewInterface) : gmap string ReviewRequest.t :=
  filter
    (λ kv,
       ReviewRequest.status kv.2 = "pending"
       ∧ ¬ (filter_given chapter_id = true
            ∧ Some (ReviewRequest.chapter_id kv.2) ≠ chapter_id)
       ∧ ¬ (filter_given review_type = true
            ∧ Some (ReviewRequest.review_type kv.2) ≠ review_type))
    (pending_reviews self).

Definition content_preview (content : string) : string :=
  if (200 <? String.length content)%nat
  then String.substring 0 200 content ++ "..."
  else content.

Definition get_review_details (review_id : string)
    (self : HumanReviewInterface) : option review_details :=
  let found :=
    match pending_reviews self !! review_id with
    | Some review => Some review
    | None => completed_reviews self !! review_id
    end in
  match found with
  | None => None
  | Some review =>
      let version := ReviewRequest.version review in
      Some (mk_review_details review_id
              (ReviewRequest.chapter_id review)
              (ReviewRequest.review_type review)
              (ReviewRequest.status review)
              (isoformat (ReviewRequest.submitted_at review))
              (mk_version_summary
                 (ContentVersion.id version)
                 (ContentStatus.value (ContentVersion.status version))
                 (AgentType.value (ContentVersion.agent_type version))
                 (isoformat (ContentVersion.created_at version))
                 (String.length (ContentVersion.content version))
                 (content_preview (ContentVersion.content version)))
              (ReviewRequest.reviewer_notes review))
  end.

(** [completed_at] and [now] are what the two calls of [datetime.now()]
    return, in that order. *)
Definition complete_review (uuid4 : UUID) (completed_at now : datetime)
    (review_id updated_content feedback reviewer_name : string)
    (self : HumanReviewInterface)
    : option ContentVersion.t * HumanReviewInterface :=
  match pending_reviews self !! review_id with
  | None => (None, self)
  | Some review =>
      let original_version := ReviewRequest.version review in
      let new_version :=
        ContentVersion_init uuid4 (PStr (uuid_str uuid4))
          (ReviewRequest.chapter_id review) updated_content
          ContentStatus.HUMAN_EDITED AgentType.HUMAN_EDITOR
          (list_to_map [
             ("feedback", PStr feedback);
             ("review_id", PStr review_id);
             ("reviewer_name", PStr reviewer_name);
             ("review_type", PStr (ReviewRequest.review_type review));
             ("review_completed_at", PStr (isoformat completed_at))])
          now (Some (ContentVersion.id original_version)) in
      let review :=
        ReviewRequest.set_reviewer_notes feedback
          (ReviewRequest.set_status "completed" review) in
      (Some new_version,
       mk_interface (delete review_id (pending_reviews self))
         (<[review_id := review]> (completed_reviews self)))
  end.

Definition reject_review (review_id reason : string)
    (self : HumanReviewInterface) : bool * HumanReviewInterface :=
  match pending_reviews self !! review_id with
  | None => (false, self)
  | Some review =>
      let review :=
        ReviewRequest.set_reviewer_notes reason
          (ReviewRequest.set_status "rejected" review) in
      (true,
       mk_interface (<[review_id := review]> (pending_reviews self))
         (completed_reviews self))
  end.

(** [(datetime.now() - submitted_at).total_seconds() / 3600]. Python
    computes the two quotients in floating point; both are rounded to
    nearest, rounding is monotone and 24 and 72 hours are floats, so the
    comparisons of [_calculate_urgency] come out as on the exact
    quotient. *)
Definition hours_since_submission (now submitted_at : datetime) : Q :=
  ((now - submitted_at)%Z # 1000000) / 3600.

Definition _calculate_urgency (now submitted_at : datetime) : string :=
  if Qltb 72 (hours_since_submission now submitted_at) then "high"
  else if Qltb 24 (hours_since_submission now submitted_at) then "medium"
  else "low".
End human_interface.

(** ** src/models/chapter_models.py *)

Module PublicationPhase.
Inductive t :=
  | RESEARCH | DRAFTING | SPINNING | REVIEW | HUMAN_REVIEW | FINALIZATION
  | PUBLICATION | COMPLETED | FAILED.
End PublicationPhase.

Module Chapter.
Record t := mk {
  id : string;
  title : string;
  url : string;
  original_content : string;
  current_version : ContentVersion.t;
  versions : list ContentVersion.t;
  description : string;
  target_length : Z;
  keywords : list string;
  research_sources : list string;
  current_phase : PublicationPhase.t;
  research_version_id : option string;
  screenshot_path : option string;
  metadata : gmap string pyval
}.

Definition set_current_phase (p : PublicationPhase.t) (c : t) : t :=
  mk (id c) (title c) (url c) (original_content c) (current_version c)
     (versions c) (description c) (target_length c) (keywords c)
     (research_sources c) p (research_version_id c) (screenshot_path c)
     (metadata c).

Definition set_research_version_id (v : string) (c : t) : t :=
  mk (id c) (title c) (url c) (original_content c) (current_version c)
     (versions c) (description c) (target_length c) (keywords c)
     (research_sources c) (current_phase c) (Some v) (screenshot_path c)
     (metadata c).

(** [Chapter.add_version] *)
Definition add_version (version : ContentVersion.t) (c : t) : t :=
  mk (id c) (title c) (url c) (original_content c) version
     (versions c ++ [version]) (description c) (target_length c)
     (keywords c) (research_sources c) (current_phase c)
     (research_version_id c) (screenshot_path c) (metadata c).
End Chapter.

(** ** src/workflow/publication_workflow.py *)

(** What awaiting [web_scraper.research_topic(title, keywords, sources)]
    comes to: an exception, or a text and its metadata. *)
Inductive research_outcome :=
  | ResearchRaised
  | ResearchReturned (content : string) (metadata : gmap string pyval).

(** An element of the list [asyncio.gather(.., return_exceptions=True)]
    returns: the value a task returned, or the exception it raised. *)
Inductive gathered (A : Type) :=
  | Returned (a : A)
  | RaisedException.
Arguments Returned {A} _.
Arguments RaisedException {A}.

Section publication_workflow.
Context `{PyBuiltins}.
Variable research_topic :
  string → list string → list string → research_outcome.

Definition _research_chapter (uuid4 : UUID) (now : datetime)
    (chapter : Chapter.t) : Store (bool * Chapter.t) :=
  match
    research_topic (Chapter.title chapter) (Chapter.keywords chapter)
      (Chapter.research_sources chapter)
  with
  | ResearchRaised => mret (false, chapter)
  | ResearchReturned content metadata =>
      if negb (nonempty content) then mret (false, chapter)
      else
        let research_version :=
          ContentVersion_init uuid4 (PStr (uuid_str uuid4))
            (Chapter.id chapter) content ContentStatus.SCRAPED
            AgentType.SCRAPER metadata now None in
        saved ← save_version research_version;
        if negb saved then mret (false, chapter)
        else
          mret (true,
                Chapter.add_version research_version
                  (Chapter.set_research_version_id
                     (ContentVersion.id research_version) chapter))
  end.

(** The tasks handed to [asyncio.gather]. Each task suspends only while
    it awaits [research_topic], so what it does to the store and to its
    chapter afterwards is not interleaved with another task; the tasks
    are run here in the order of the list. The [i]-th task draws
    [uuid4 i] and reads the clock as [now i]. *)
Fixpoint gather_research (uuid4 : nat → UUID) (now : nat → datetime)
    (i : nat) (chapters : list Chapter.t)
    : Store (list (gathered bool * Chapter.t)) :=
  match chapters with
  | [] => mret []
  | chapter :: chapters =>
      r ← _research_chapter (uuid4 i) (now i) chapter;
      rs ← gather_research uuid4 now (S i) chapters;
      mret ((Returned r.1, r.2) :: rs)
  end.

(** The loop over the gathered results. *)
Definition check_result (r : gathered bool * Chapter.t) : Chapter.t :=
  match r.1 with
  | RaisedException =>
      Chapter.set_current_phase PublicationPhase.FAILED r.2
  | Returned _ =>
      Chapter.set_current_phase PublicationPhase.DRAFTING r.2
  end.

Definition _research_phase (uuid4 : nat → UUID) (now : nat → datetime)
    (chapters : list Chapter.t) : Store (list Chapter.t) :=
  results ← gather_research uuid4 now 0 chapters;
  mret (check_result <$> results).
End publication_workflow.

(** ** An instance of the builtins

    A datetime is written as its offset in decimal, a UUID as its number in
    decimal after a prefix, and containers are abbreviated. The instance
    shows that the laws of [PyBuiltins] can be met and lets the model be
    evaluated on concrete inputs. *)

Module ModelBuiltins.
Definition write_datetime (d : datetime) : string :=
  NilZero.string_of_int (Z.to_int d).

Definition read_datetime (s : string) : option datetime :=
  Z.of_int <$> NilZero.int_of_string s.

Definition str_of (v : pyval) : string :=
  match v with
  | PNone => "None"
  | PBool b => if b then "True" else "False"
  | PInt z => NilZero.string_of_int (Z.to_int z)
  | PStr s => s
  | PDatetime d => write_datetime d
  | PStatus s => "ContentStatus." ++ ContentStatus.value s
  | PAgent a => "AgentType." ++ AgentType.value a
  | PList _ => "[...]"
  | PDict _ => "{...}"
  end.

Definition str_of_uuid (u : UUID) : string :=
  "uuid-" ++ NilZero.string_of_uint (N.to_uint u).

Definition md5_of (s : string) : string := "md5:" ++ s.

Global Instance builtins : PyBuiltins.
Proof.
  refine {|
    isoformat := write_datetime;
    fromisoformat := read_datetime;
    py_str := str_of;
    uuid_str := str_of_uuid;
    md5_hexdigest := md5_of
  |}.
  - intros d. unfold read_datetime, write_datetime.
    rewrite NilZero.isi.
    + simpl. by rewrite DecimalZ.of_to.
    + destruct d; simpl; try done.
      intros [= Hp]. by apply DecimalPos.Unsigned.to_uint_nonnil in Hp.
    + destruct d; simpl; try done.
      intros [= Hp]. by apply DecimalPos.Unsigned.to_uint_nonnil in Hp.
  - done.
  - assert (∀ d, NilZero.string_of_int d ≠ "") as Hint.
    { intros [[]|[]]; done. }
    intros v Hv. destruct v as [|[]|z|s|d|st|a|l|m]; simpl; try done.
    + by destruct s.
    + apply Hint.
  - done.
Defined.
End ModelBuiltins.

(** ** Inputs on which the model is evaluated *)

Module Sample.
Local Open Scope Z_scope.

(** The versions a chapter gets on its way through the pipeline: the
    research text, the draft made from it and the rewrite of the draft. *)
Definition v1 : ContentVersion.t :=
  ContentVersion.mk "v1" "ch1" "research text" ContentStatus.SCRAPED
    AgentType.SCRAPER ∅ 1 None.
Definition v2 : ContentVersion.t :=
  ContentVersion.mk "v2" "ch1" "draft text" ContentStatus.AI_WRITTEN
    AgentType.AI_WRITER {["word_count" := PInt 2]} 2 (Some "v1").
Definition v3 : ContentVersion.t :=
  ContentVersion.mk "v3" "ch1" "spun text" ContentStatus.AI_WRITTEN
    AgentType.AI_WRITER {["original_draft_id" := PStr "v2"]} 3 (Some "v2").

Definition store1 : collection := final (save_version v1 ∅).
Definition store2 : collection := final (save_version v2 store1).
Definition store3 : collection := final (save_version v3 store2).

(** A draft whose clock reads earlier than that of the research text it
    was made from. *)
Definition early_draft : ContentVersion.t :=
  ContentVersion.mk "d0" "ch2" "draft text" ContentStatus.AI_WRITTEN
    AgentType.AI_WRITER ∅ 5 (Some "r0").
Definition late_root : ContentVersion.t :=
  ContentVersion.mk "r0" "ch2" "research text" ContentStatus.SCRAPED
    AgentType.SCRAPER ∅ 9 None.
Definition skewed_store : collection :=
  final (save_version early_draft (final (save_version late_root ∅))).

(** What [collection.query] answers when the draft lies at cosine distance
    one half of the query text. *)
Definition half_distance : Chroma.query_result :=
  Chroma.mk_query_result [["draft text"]] [[chroma_metadata v2]]
    (Some [[(1 # 2)%Q]]).

(** A research provider that finds text whenever it is given a source and
    raises [ValueError] when it is given none, as [research_topic] does. *)
Definition research_topic (title : string) (keywords sources : list string)
    : research_outcome :=
  match sources with
  | [] => ResearchRaised
  | _ => ResearchReturned ("Source: " ++ title) {["title" := PStr title]}
  end.

Definition chapter (id title : string) (sources : list string)
    : Chapter.t :=
  let initial_version :=
    ContentVersion.mk ("init-" ++ id) id "" ContentStatus.SCRAPED
      AgentType.SCRAPER ∅ 0 None in
  Chapter.mk id title "" "" initial_version [initial_version] "" 2000 []
    sources PublicationPhase.RESEARCH None None ∅.

Definition chapters : list Chapter.t :=
  [chapter "a" "One" ["https://example.org/1"];
   chapter "b" "Two" [];
   chapter "c" "Three" ["https://example.org/3"]].

Definition pending_request : ReviewRequest.t :=
  ReviewRequest.mk "r1" "ch1" v3 "general" 0 "pending" "".
Definition queue : HumanReviewInterface :=
  mk_interface {["r1" := pending_request]} ∅.
End Sample.

(** ** Further operations of the same files *)

Global Instance ContentStatus_eq_dec : EqDecision ContentStatus.t.
Proof. solve_decision. Defined.

Global Instance AgentType_eq_dec : EqDecision AgentType.t.
Proof. solve_decision. Defined.

Global Instance PublicationPhase_eq_dec : EqDecision PublicationPhase.t.
Proof. solve_decision. Defined.

Global Instance Chroma_value_countable : Countable Chroma.value.
Proof.
  refine (inj_countable'
            (λ v, match v with
                  | Chroma.Str s => inl s
                  | Chroma.Int z => inr z
                  end)
            (λ x, match x with
                  | inl s => Chroma.Str s
                  | inr z => Chroma.Int z
                  end) _).
  by intros [].
Defined.

(** [max(x :: l, key)]: the first of the elements with the greatest key. *)
Fixpoint max_by_key {A : Type} (key : A → Z) (x : A) (l : list A) : A :=
  match l with
  | [] => x
  | y :: l => max_by_key key (if (key x <? key y)%Z then y else x) l
  end.

(** The counting loop [counts[k] = counts.get(k, 0) + 1] over a list. *)
Definition count_step `{Countable K} (counts : gmap K nat) (k : K)
    : gmap K nat :=
  <[k := default 0%nat (counts !! k) + 1]> counts.

Definition count_values `{Countable K} (l : list K) : gmap K nat :=
  foldl count_step ∅ l.

(** *** src/storage/version_manager.py *)

Definition tree_node_id (n : tree_node) : string :=
  match n with TreeNode id _ _ => id end.
Definition tree_node_info (n : tree_node) : option version_fields :=
  match n with TreeNode _ info _ => info end.
Definition tree_node_children (n : tree_node) : list tree_node :=
  match n with TreeNode _ _ children => children end.

(** The shape every entry of the dictionary of [get_version_tree] has: it
    is keyed by its own id, and its children are entries of versions that
    have no children themselves. *)
Definition flat_entry (k : string) (n : tree_node) : Prop :=
  tree_node_id n = k
  ∧ Forall (λ child, tree_node_children child = []
                     ∧ is_Some (tree_node_info child))
      (tree_node_children n).

(** The dictionary [get_statistics] returns. *)
Record statistics := mk_statistics {
  total_versions : nat;
  status_distribution : gmap Chroma.value nat;
  agent_distribution : gmap Chroma.value nat;
  chapter_distribution : gmap Chroma.value nat;
  database_path : string
}.

Section version_manager_queries.
Context `{PyBuiltins}.

Definition get_latest_version (uuid4 : UUID) (chapter_id : string)
    (status : option ContentStatus.t) : Store (option ContentVersion.t) :=
  versions ← get_chapter_versions uuid4 chapter_id;
  let versions :=
    match status with
    | Some status =>
        filter (λ v, ContentVersion.status v = status) versions
    | None => versions
    end in
  mret (match versions with
        | [] => None
        | v :: versions =>
            Some (max_by_key ContentVersion.created_at v versions)
        end).

(** [metadata.get(key, 'unknown')] *)
Definition get_or_unknown (key : string) (r : Chroma.record) : Chroma.value :=
  default (Chroma.Str "unknown") (Chroma.metadata r !! key).

Definition get_statistics (db_path : string) : Store statistics :=
  found ← store_read (λ c, snd <$> map_to_list c);
  mret (mk_statistics (length found)
          (count_values (get_or_unknown "status" <$> found))
          (count_values (get_or_unknown "agent_type" <$> found))
          (count_values (get_or_unknown "chapter_id" <$> found))
          db_path).
End version_manager_queries.

(** The calls that change the store, and the stores that sequences of such
    calls build from the empty collection. *)
Inductive store_call :=
  | CallSaveVersion (version : ContentVersion.t)
  | CallUpdateVersionStatus (uuid4 : UUID) (version_id : string)
      (new_status : ContentStatus.t)
  | CallDeleteVersion (version_id : string).

Section store_calls.
Context `{PyBuiltins}.

Definition run_store_call (c : collection) (call : store_call) : collection :=
  match call with
  | CallSaveVersion version => final (save_version version c)
  | CallUpdateVersionStatus uuid4 version_id new_status =>
      final (update_version_status uuid4 version_id new_status c)
  | CallDeleteVersion version_id => final (delete_version version_id c)
  end.

Definition run_store_calls (calls : list store_call) : collection :=
  foldl run_store_call ∅ calls.
End store_calls.

(** *** src/models/content_models.py *)

(** The number of objects an object is made of, by which the proofs about
    [_make_serializable] recur. *)
Fixpoint pyval_size (v : pyval) : nat :=
  match v with
  | PList l => S (sum_list (pyval_size <$> l))
  | PDict m => S (map_fold (λ _ x acc, pyval_size x + acc)%nat 0%nat m)
  | _ => 1
  end.

Section content_models_dict.
Context `{PyBuiltins}.

(** Whether an object holds no datetime and no enum member, at any depth:
    the objects [_make_serializable] is meant to produce. *)
Fixpoint serializable (data : pyval) : bool :=
  match data with
  | PDatetime _ | PStatus _ | PAgent _ => false
  | PList l => forallb serializable l
  | PDict m => map_fold (λ _ v acc, serializable v && acc) true m
  | _ => true
  end.

Definition optional_str (o : option string) : pyval :=
  match o with
  | Some s => PStr s
  | None => PNone
  end.

(** [dataclasses.asdict(self)] *)
Definition asdict (v : ContentVersion.t) : gmap string pyval :=
  list_to_map [
    ("id", PStr (ContentVersion.id v));
    ("chapter_id", PStr (ContentVersion.chapter_id v));
    ("content", PStr (ContentVersion.content v));
    ("status", PStatus (ContentVersion.status v));
    ("agent_type", PAgent (ContentVersion.agent_type v));
    ("metadata", PDict (ContentVersion.metadata v));
    ("created_at", PDatetime (ContentVersion.created_at v));
    ("parent_version_id", optional_str (ContentVersion.parent_version_id v))
  ].

(** [ContentVersion.to_dict] *)
Definition to_dict (v : ContentVersion.t) : gmap string pyval :=
  _make_serializable <$> asdict v.

(** [ContentStatus(x)] and [AgentType(x)] on an object: a member stands for
    itself, a string for the member with that value. *)
Definition ContentStatus_call (x : pyval) : option ContentStatus.t :=
  match x with
  | PStatus s => Some s
  | PStr s => ContentStatus.of_value s
  | _ => None
  end.

Definition AgentType_call (x : pyval) : option AgentType.t :=
  match x with
  | PAgent a => Some a
  | PStr s => AgentType.of_value s
  | _ => None
  end.

Definition expect_str (x : pyval) : option string :=
  match x with PStr s => Some s | _ => None end.

(** [ContentVersion.from_dict]. [default_uuid] is the UUID drawn for the
    default of [data.get('id', ..)], [uuid4] the one [__post_init__] draws.
    [None] stands for an exception ([KeyError] for a missing key,
    [TypeError] or [ValueError] for a date that is no ISO string, or an
    unknown status or agent); a chapter id, content, metadata or parent id
    of another type than the annotated one is outside the typed record and
    is treated the same way. *)
Definition from_dict (default_uuid uuid4 : UUID) (data : gmap string pyval)
    : option ContentVersion.t :=
  let data :=
    match data !! "id" with
    | Some PNone | None => data
    | Some id => <["id" := PStr (py_str id)]> data
    end in
  data ←
    match data !! "created_at" with
    | Some (PStr s) =>
        d ← fromisoformat s; Some (<["created_at" := PDatetime d]> data)
    | Some _ => None
    | None => Some data
    end;
  let field (key : string) : option pyval := data !! key in
  chapter_id ← field "chapter_id" ≫= expect_str;
  content ← field "content" ≫= expect_str;
  status ← field "status" ≫= ContentStatus_call;
  agent_type ← field "agent_type" ≫= AgentType_call;
  metadata ← field "metadata" ≫= (λ x, match x with
                                       | PDict m => Some m
                                       | _ => None
                                       end);
  created_at ← field "created_at" ≫= (λ x, match x with
                                         | PDatetime d => Some d
                                         | _ => None
                                         end);
  parent_version_id ←
    match field "parent_version_id" with
    | None | Some PNone => Some None
    | Some (PStr s) => Some (Some s)
    | Some _ => None
    end;
  Some (ContentVersion_init uuid4
          (default (PStr (uuid_str default_uuid)) (field "id"))
          chapter_id content status agent_type metadata created_at
          parent_version_id).
End content_models_dict.

(** *** src/models/chapter_models.py *)

(** [Chapter.get_version_by_id] *)
Definition get_version_by_id (version_id : string) (c : Chapter.t)
    : option ContentVersion.t :=
  find (λ v, bool_decide (ContentVersion.id v = version_id))
    (Chapter.versions c).

(** [Chapter.get_latest_human_version] *)
Definition get_latest_human_version (c : Chapter.t)
    : option ContentVersion.t :=
  let human_versions :=
    filter (λ v, ContentVersion.agent_type v
                   ∈ [AgentType.HUMAN_WRITER; AgentType.HUMAN_REVIEWER;
                      AgentType.HUMAN_EDITOR])
      (Chapter.versions c) in
  match human_versions with
  | [] => None
  | v :: versions => Some (max_by_key ContentVersion.created_at v versions)
  end.

(** [Chapter.get_versions_by_status]; [None] stands for the [ValueError]
    of [ContentStatus(status)] on a string that is the value of no
    member. *)
Definition get_versions_by_status (status : string) (c : Chapter.t)
    : option (list ContentVersion.t) :=
  target_status ← ContentStatus.of_value status;
  Some (filter (λ v, ContentVersion.status v = target_status)
          (Chapter.versions c)).

Module Book.
Record t := mk {
  id : string;
  title : string;
  author : string;
  chapters : gmap string Chapter.t;
  metadata : gmap string pyval
}.
End Book.

(** The dictionary [Book.get_completion_status] returns: the one of a book
    without chapters, [{'total': 0, 'completed': 0, 'percentage': 0}], or
    the one with the counts and the percentages. The percentages are
    floats in the code and rationals here. *)
Inductive completion_status :=
  | NoChapters
  | Completion (total_chapters finalized_chapters published_chapters : nat)
      (finalized_percentage published_percentage : Q).

(** [sum(1 for chapter in self.chapters.values()
         if chapter.current_version.status == status)] *)
Definition count_current_status (status : ContentStatus.t) (b : Book.t)
    : nat :=
  length (filter (λ chapter,
                    ContentVersion.status (Chapter.current_version chapter)
                    = status)
            (snd <$> map_to_list (Book.chapters b))).

Definition percentage (part total : nat) : Q :=
  ((inject_Z (Z.of_nat part) / inject_Z (Z.of_nat total)) * 100)%Q.

Definition get_completion_status (b : Book.t) : completion_status :=
  let total_chapters := size (Book.chapters b) in
  if bool_decide (total_chapters = 0%nat) then NoChapters
  else
    let finalized_chapters :=
      count_current_status ContentStatus.FINALIZED b in
    let published_chapters :=
      count_current_status ContentStatus.PUBLISHED b in
    Completion total_chapters finalized_chapters published_chapters
      (percentage finalized_chapters total_chapters)
      (percentage published_chapters total_chapters).

(** *** src/agents/human_interface.py *)

(** The dictionary [get_review_statistics] returns. The list of review
    types is made from a set, so its order is open; it is kept as the
    set. *)
Record review_statistics := mk_review_statistics {
  total_pending : nat;
  total_completed : nat;
  pending_by_type : gmap string nat;
  completed_by_type : gmap string nat;
  average_completion_time_days : Q;
  review_types : gset string
}.

(** The dictionary [review_content] returns; [changes_made] is present
    only when changes are reported. *)
Record review_feedback := mk_review_feedback {
  rf_requires_changes : bool;
  rf_feedback : string;
  rf_edited_content : string;
  rf_changes_made : option (list string);
  rf_review_id : option string
}.

Section human_interface_more.
Context `{PyBuiltins}.

(** The values of a dictionary of requests, as the loops over
    [.values()] see them. *)
Definition requests (m : gmap string ReviewRequest.t)
    : list ReviewRequest.t :=
  snd <$> map_to_list m.

Definition get_review_statistics (self : HumanReviewInterface)
    : review_statistics :=
  let pending_by_type :=
    count_values (ReviewRequest.review_type <$> requests (pending_reviews self)) in
  let completed_by_type :=
    count_values
      (ReviewRequest.review_type <$> requests (completed_reviews self)) in
  let completion_times :=
    filter (λ r, ReviewRequest.status r = "completed")
      (requests (completed_reviews self)) in
  mk_review_statistics
    (size (pending_reviews self)) (size (completed_reviews self))
    pending_by_type completed_by_type
    (match completion_times with [] => 0%Q | _ => 1%Q end)
    (dom pending_by_type ∪ dom completed_by_type).

(** [review_content]. The version is built first, with the UUID
    [version_uuid] and the clock reading [created_at]; the request is then
    submitted with [review_uuid] at [submitted_at]. *)
Definition review_content (version_uuid review_uuid : UUID)
    (created_at submitted_at : datetime) (title content description : string)
    (self : HumanReviewInterface) : review_feedback * HumanReviewInterface :=
  let version :=
    ContentVersion_init version_uuid (PStr (uuid_str version_uuid)) title
      content ContentStatus.AI_REVIEWED AgentType.AI_REVIEWER
      {["description" := PStr description]} created_at None in
  let submitted :=
    submit_for_human_review review_uuid submitted_at title version "general"
      "normal" self in
  let review_id := submitted.1 in
  match get_review_details review_id submitted.2 with
  | None =>
      (mk_review_feedback false "No review details available" content None
         (Some review_id), submitted.2)
  | Some review_details =>
      if bool_decide (rd_status review_details = "completed") then
        (mk_review_feedback true (rd_reviewer_notes review_details)
           (vs_content_preview (rd_version_info review_details))
           (Some ["Content reviewed and edited by human reviewer"])
           (Some review_id), submitted.2)
      else
        (mk_review_feedback false "Review pending" content None
           (Some review_id), submitted.2)
  end.
End human_interface_more.

(** The calls that change a review queue, and the queues that sequences of
    such calls build from the empty queue of [__init__]. *)
Inductive queue_call :=
  | CallSubmit (uuid4 : UUID) (now : datetime) (chapter_id : string)
      (version : ContentVersion.t) (review_type priority : string)
  | CallComplete (uuid4 : UUID) (completed_at now : datetime)
      (review_id updated_content feedback reviewer_name : string)
  | CallReject (review_id reason : string).

Section queue_calls.
Context `{PyBuiltins}.

Definition run_call (self : HumanReviewInterface) (call : queue_call)
    : HumanReviewInterface :=
  match call with
  | CallSubmit uuid4 now chapter_id version review_type priority =>
      (submit_for_human_review uuid4 now chapter_id version review_type
         priority self).2
  | CallComplete uuid4 completed_at now review_id updated_content feedback
      reviewer_name =>
      (complete_review uuid4 completed_at now review_id updated_content
         feedback reviewer_name self).2
  | CallReject review_id reason => (reject_review review_id reason self).2
  end.

Definition run_calls (calls : list queue_call) : HumanReviewInterface :=
  foldl run_call HumanReviewInterface_init calls.
End queue_calls.

(** What holds of every queue: a request is filed under its own id; the
    pending dictionary holds pending and rejected requests, the completed
    dictionary completed ones. *)
Definition queue_inv (q : HumanReviewInterface) : Prop :=
  (∀ id r, pending_reviews q !! id = Some r →
     ReviewRequest.id r = id
     ∧ (ReviewRequest.status r = "pending"
        ∨ ReviewRequest.status r = "rejected"))
  ∧ (∀ id r, completed_reviews q !! id = Some r →
       ReviewRequest.id r = id ∧ ReviewRequest.status r = "completed").

(** *** src/utils/human_feedback.py *)

(** The dictionary kept as [current_session]. *)
Record review_session := mk_review_session {
  rs_review_id : string;
  rs_started_at : datetime;
  rs_content : string;
  rs_review_type : string;
  rs_chapter_id : string
}.

Record HumanFeedback := mk_human_feedback {
  review_interface : HumanReviewInterface;
  current_session : option review_session
}.

(** The exceptions [provide_feedback] catches: the [TypeError] of
    subscripting the [None] that [get_review_details] returned, and its own
    [ValueError('Failed to complete review')]. *)
Inductive feedback_error :=
  | NoReviewDetails
  | FailedToCompleteReview.

(** The dictionary [provide_feedback] returns. *)
Inductive feedback_result :=
  | FeedbackGiven (review_id : string) (feedback_length : nat)
      (content_updated : bool) (new_version_id : string)
  | FeedbackFailed (error : feedback_error) (review_id : string).

Section human_feedback.
Context `{PyBuiltins}.

(** [None] stands for the [ValueError] raised when the review is not
    found. *)
Definition start_review_session (now : datetime) (review_id : string)
    (self : HumanFeedback) : option (review_session * HumanFeedback) :=
  match get_review_details review_id (review_interface self) with
  | None => None
  | Some review_details =>
      let session :=
        mk_review_session review_id now
          (vs_content_preview (rd_version_info review_details))
          (rd_review_type review_details) (rd_chapter_id review_details) in
      Some (session, mk_human_feedback (review_interface self) (Some session))
  end.

(** [None] stands for the [ValueError] raised when no session is active. *)
Definition provide_feedback (uuid4 : UUID) (completed_at now : datetime)
    (feedback : string) (updated_content : option string)
    (self : HumanFeedback) : option (feedback_result * HumanFeedback) :=
  match current_session self with
  | None => None
  | Some session =>
      let review_id := rs_review_id session in
      let updated_content :=
        if filter_given updated_content then Some (default "" updated_content)
        else
          (λ d, vs_content_preview (rd_version_info d))
          <$> get_review_details review_id (review_interface self) in
      match updated_content with
      | None => Some (FeedbackFailed NoReviewDetails review_id, self)
      | Some updated_content =>
          let completed :=
            complete_review uuid4 completed_at now review_id updated_content
              feedback "Human Reviewer" (review_interface self) in
          match completed.1 with
          | None => Some (FeedbackFailed FailedToCompleteReview review_id, self)
          | Some new_version =>
              Some (FeedbackGiven review_id (String.length feedback)
                      (negb (bool_decide
                               (updated_content = rs_content session)))
                      (ContentVersion.id new_version),
                    mk_human_feedback completed.2 None)
          end
      end
  end.

Definition cancel_review (review_id reason : string) (self : HumanFeedback)
    : bool * HumanFeedback :=
  let rejected := reject_review review_id reason (review_interface self) in
  (rejected.1, mk_human_feedback rejected.2 (current_session self)).
End human_feedback.

(** *** src/workflow/publication_workflow.py: the drafting phase *)

(** A chapter together with the attribute [draft_version_id], which
    [_draft_chapter] sets on the object; [None] while it is not set. *)
Record drafting_chapter := mk_drafting_chapter {
  dc_chapter : Chapter.t;
  dc_draft_version_id : option string
}.

(** What awaiting [llm_agent.generate_content(..)] comes to. *)
Inductive generation_outcome :=
  | GenerationRaised
  | GenerationReturned (text : string).

Section drafting_phase.
Context `{PyBuiltins}.
Variable generate_content :
  string → string → Z → string → generation_outcome.
(** [len(text.split())] *)
Variable word_count : string → Z.

(** [version_manager.get_version] on the optional id of a chapter. For
    [None] the collection refuses the id or finds nothing, and either way
    [get_version] returns [None]. *)
Definition get_version_of (stored_uuid : UUID) (version_id : option string)
    : Store (option ContentVersion.t) :=
  match version_id with
  | Some version_id => get_version stored_uuid version_id
  | None => mret None
  end.

Definition _draft_chapter (stored_uuid uuid4 : UUID) (now : datetime)
    (chapter : Chapter.t) : Store (bool * drafting_chapter) :=
  research_version ←
    get_version_of stored_uuid (Chapter.research_version_id chapter);
  match research_version with
  | None => mret (false, mk_drafting_chapter chapter None)
  | Some research_version =>
      match
        generate_content (Chapter.title chapter)
          (ContentVersion.content research_version)
          (Chapter.target_length chapter) (Chapter.description chapter)
      with
      | GenerationRaised => mret (false, mk_drafting_chapter chapter None)
      | GenerationReturned draft_content =>
          if negb (nonempty draft_content)
          then mret (false, mk_drafting_chapter chapter None)
          else
            let draft_version :=
              ContentVersion_init uuid4 (PStr (uuid_str uuid4))
                (Chapter.id chapter) draft_content ContentStatus.AI_WRITTEN
                AgentType.AI_WRITER
                (list_to_map [
                   ("word_count", PInt (word_count draft_content));
                   ("target_length", PInt (Chapter.target_length chapter))])
                now (Some (ContentVersion.id research_version)) in
            save_version draft_version;;
            mret (true,
                  mk_drafting_chapter chapter
                    (Some (ContentVersion.id draft_version)))
      end
  end.

(** The loop of [_drafting_phase] from the [i]-th chapter on, with the
    counter [workflow_stats['failed_chapters']]. *)
Fixpoint drafting_loop (stored_uuid uuid4 : nat → UUID) (now : nat → datetime)
    (i : nat) (chapters : list Chapter.t) (failed_chapters : nat)
    : Store (list drafting_chapter * nat) :=
  match chapters with
  | [] => mret ([], failed_chapters)
  | chapter :: chapters =>
      if bool_decide
           (Chapter.current_phase chapter ≠ PublicationPhase.DRAFTING)
      then
        rest ← drafting_loop stored_uuid uuid4 now (S i) chapters
                 failed_chapters;
        mret (mk_drafting_chapter chapter None :: rest.1, rest.2)
      else
        drafted ← _draft_chapter (stored_uuid i) (uuid4 i) (now i) chapter;
        let success : bool := drafted.1 in
        let phase :=
          if success then PublicationPhase.SPINNING
          else PublicationPhase.FAILED in
        let failed_chapters :=
          if success then failed_chapters else S failed_chapters in
        rest ← drafting_loop stored_uuid uuid4 now (S i) chapters
                 failed_chapters;
        mret (mk_drafting_chapter
                (Chapter.set_current_phase phase (dc_chapter drafted.2))
                (dc_draft_version_id drafted.2) :: rest.1,
              rest.2)
  end.

Definition _drafting_phase (stored_uuid uuid4 : nat → UUID)
    (now : nat → datetime) (chapters : list Chapter.t)
    (failed_chapters : nat) : Store (list drafting_chapter * nat) :=
  drafting_loop stored_uuid uuid4 now 0 chapters failed_chapters.
End drafting_phase.

(** What the drafting phase makes of one chapter. *)
Definition drafted (chapter : Chapter.t) (dc : drafting_chapter) : Prop :=
  if decide (Chapter.current_phase chapter = PublicationPhase.DRAFTING) then
    (dc_chapter dc
     = Chapter.set_current_phase PublicationPhase.SPINNING chapter
     ∧ is_Some (dc_draft_version_id dc)
     ∧ is_Some (Chapter.research_version_id chapter))
    ∨ (dc_chapter dc
       = Chapter.set_current_phase PublicationPhase.FAILED chapter
       ∧ dc_draft_version_id dc = None)
  else dc = mk_drafting_chapter chapter None.

Definition failed_among (chapters : list Chapter.t) : nat :=
  length (filter (λ chapter,
                    Chapter.current_phase chapter = PublicationPhase.FAILED)
            chapters).

(** * Properties *)

(** ** Values and builtins *)

Lemma nonempty_true s : nonempty s = true ↔ s ≠ "".
Proof.
  unfold nonempty. destruct (String.eqb_spec s ""); simpl; split; congruence.
Qed.

Lemma nonempty_false s : nonempty s = false ↔ s = "".
Proof.
  unfold nonempty. destruct (String.eqb_spec s ""); simpl; split; congruence.
Qed.

Lemma ContentStatus_of_value_value s :
  ContentStatus.of_value (ContentStatus.value s) = Some s.
Proof. by destruct s. Qed.

Lemma AgentType_of_value_value a :
  AgentType.of_value (AgentType.value a) = Some a.
Proof. by destruct a. Qed.

Lemma string_app_cons a p s : String a p ++ s = String a (p ++ s).
Proof. done. Qed.

Lemma string_drop_prefix p s :
  String.prefix p s = true → p ++ string_drop (String.length p) s = s.
Proof.
  revert s. induction p as [|a p IH]; intros [|b s]; simpl; try done.
  destruct (Ascii.ascii_dec a b) as [->|]; [|done].
  intros Hp. rewrite string_app_cons. f_equal. by apply IH.
Qed.

Lemma prefix_app p s : String.prefix p (p ++ s) = true.
Proof.
  induction p as [|a p IH]; [by destruct s|].
  rewrite string_app_cons. simpl. by destruct (Ascii.ascii_dec a a).
Qed.

Lemma string_drop_app p s : string_drop (String.length p) (p ++ s) = s.
Proof.
  induction p as [|a p IH]; [by destruct s|].
  by rewrite string_app_cons.
Qed.

(** ** The version manager: what is written and what is read back *)

Section version_manager_facts.
Context `{PyBuiltins}.

Lemma read_back_is_PStr value : is_PStr (read_back value) = true.
Proof. by destruct value. Qed.

Lemma read_back_PStr s : read_back (PStr s) = PStr s.
Proof. unfold read_back. simpl. by rewrite py_str_PStr. Qed.

Lemma stored_meta_read_back value :
  stored_meta (read_back value) = stored_meta value.
Proof. unfold read_back. destruct value; simpl; by rewrite ?py_str_PStr. Qed.

Lemma _make_serializable_PStr v :
  is_PStr v = true → _make_serializable v = v.
Proof. by destruct v. Qed.

Lemma lookup_chroma_metadata_meta v key :
  chroma_metadata v !! ("meta_" ++ key)
  = stored_meta <$> ContentVersion.metadata v !! key.
Proof.
  unfold chroma_metadata. rewrite lookup_union, lookup_kmap, lookup_fmap.
  rewrite (not_elem_of_list_to_map_1 _ ("meta_" ++ key)).
  - by destruct (ContentVersion.metadata v !! key).
  - simpl. rewrite !not_elem_of_cons, string_app_cons.
    repeat split; try discriminate. apply not_elem_of_nil.
  - apply _.
Qed.

Lemma lookup_chroma_metadata_base v key :
  String.prefix "meta_" key = false →
  chroma_metadata v !! key
  = (list_to_map [
      ("version_id", Chroma.Str (ContentVersion.id v));
      ("chapter_id", Chroma.Str (ContentVersion.chapter_id v));
      ("status", Chroma.Str (ContentStatus.value (ContentVersion.status v)));
      ("agent_type",
        Chroma.Str (AgentType.value (ContentVersion.agent_type v)));
      ("created_at", Chroma.Str (isoformat (ContentVersion.created_at v)));
      ("parent_version_id",
        Chroma.Str (default "" (ContentVersion.parent_version_id v)));
      ("content_length",
        Chroma.Int (Z.of_nat (String.length (ContentVersion.content v))));
      ("content_hash", Chroma.Str (get_content_hash v))
    ] : gmap string Chroma.value) !! key.
Proof.
  intros Hkey. unfold chroma_metadata. rewrite lookup_union_r; [done|].
  apply lookup_kmap_None; [apply _|]. intros k ->.
  by rewrite prefix_app in Hkey.
Qed.

Lemma version_metadata_lookup (metadata : gmap string Chroma.value) key :
  version_metadata metadata !! key
  = value_to_py <$> metadata !! ("meta_" ++ key).
Proof.
  unfold version_metadata.
  apply (map_fold_weak_ind
           (λ r (m : gmap string Chroma.value),
              r !! key = value_to_py <$> m !! ("meta_" ++ key))).
  - by rewrite !lookup_empty.
  - intros i x m r Hi IH.
    destruct (String.prefix "meta_" i) eqn:Hp.
    + apply (string_drop_prefix "meta_") in Hp.
      change (String.length "meta_") with 5%nat in Hp.
      destruct (decide (string_drop 5 i = key)) as [<-|Hne].
      * by rewrite Hp, !lookup_insert_eq.
      * assert (i ≠ "meta_" ++ key) as Hi'.
        { intros ->. by rewrite (string_drop_app "meta_") in Hne. }
        by rewrite !lookup_insert_ne.
    + assert (i ≠ "meta_" ++ key) as Hi'.
      { intros ->. by rewrite prefix_app in Hp. }
      by rewrite lookup_insert_ne.
Qed.

Lemma version_metadata_chroma_metadata v :
  version_metadata (chroma_metadata v)
  = read_back <$> ContentVersion.metadata v.
Proof.
  apply map_eq. intros key.
  rewrite version_metadata_lookup, lookup_chroma_metadata_meta.
  rewrite lookup_fmap. by destruct (ContentVersion.metadata v !! key).
Qed.

Lemma chroma_metadata_fields v :
  chroma_metadata v !! "version_id" = Some (Chroma.Str (ContentVersion.id v))
  ∧ chroma_metadata v !! "chapter_id"
    = Some (Chroma.Str (ContentVersion.chapter_id v))
  ∧ chroma_metadata v !! "status"
    = Some (Chroma.Str (ContentStatus.value (ContentVersion.status v)))
  ∧ chroma_metadata v !! "agent_type"
    = Some (Chroma.Str (AgentType.value (ContentVersion.agent_type v)))
  ∧ chroma_metadata v !! "created_at"
    = Some (Chroma.Str (isoformat (ContentVersion.created_at v)))
  ∧ chroma_metadata v !! "parent_version_id"
    = Some (Chroma.Str (default "" (ContentVersion.parent_version_id v))).
Proof.
  repeat split; (rewrite lookup_chroma_metadata_base by done);
    simpl; by simplify_map_eq.
Qed.

Lemma ContentVersion_init_stored uuid4 id chapter_id content status
    agent_type (metadata : gmap string pyval) created_at parent :
  id ≠ "" →
  ContentVersion_init uuid4 (PStr id) chapter_id content status agent_type
    (read_back <$> metadata) created_at parent
  = ContentVersion.mk id chapter_id content status agent_type
      (read_back <$> metadata) created_at parent.
Proof.
  intros Hid. unfold ContentVersion_init. simpl.
  apply nonempty_true in Hid. unfold nonempty in Hid. rewrite Hid. simpl.
  f_equal. rewrite <- map_fmap_compose. apply map_fmap_ext.
  intros key value _. simpl.
  apply _make_serializable_PStr, read_back_is_PStr.
Qed.

Lemma reconstruct_chroma_record uuid4 v :
  ContentVersion.id v ≠ "" →
  reconstruct uuid4 (ContentVersion.content v) (chroma_metadata v)
  = Some (stored_version v).
Proof.
  intros Hid. unfold reconstruct.
  destruct (chroma_metadata_fields v) as (-> & -> & -> & -> & -> & ->).
  rewrite version_metadata_chroma_metadata. simpl.
  rewrite ContentStatus_of_value_value, AgentType_of_value_value. simpl.
  rewrite fromisoformat_isoformat. simpl.
  unfold stored_version.
  destruct (ContentVersion.parent_version_id v) as [p|]; simpl.
  - fold (nonempty p). destruct (nonempty p); simpl;
      by rewrite ContentVersion_init_stored.
  - by rewrite ContentVersion_init_stored.
Qed.

(** Running the methods. *)

Lemma save_version_valid v c :
  valid v →
  save_version v c
  = Outcome true (Chroma.add (ContentVersion.id v) (chroma_record v) c)
      [Chroma.add (ContentVersion.id v) (chroma_record v) c].
Proof.
  intros (Hid & Hch & Hco). unfold save_version.
  apply nonempty_true in Hid, Hch, Hco. by rewrite Hid, Hch, Hco.
Qed.

Lemma save_version_invalid v c :
  ¬ valid v → save_version v c = Outcome false c [].
Proof.
  intros Hv. unfold save_version.
  destruct (nonempty (ContentVersion.id v)) eqn:Hid; [|done].
  destruct (nonempty (ContentVersion.chapter_id v)) eqn:Hch; [|done].
  destruct (nonempty (ContentVersion.content v)) eqn:Hco; [|done].
  destruct Hv. unfold valid. by rewrite <- !nonempty_true.
Qed.

Lemma get_version_stored uuid4 v (c : collection) :
  valid v →
  c !! ContentVersion.id v = Some (chroma_record v) →
  get_version uuid4 (ContentVersion.id v) c
  = Outcome (Some (stored_version v)) c [].
Proof.
  intros (Hid & Hch & Hco) Hc. unfold get_version.
  unfold mbind, Store_bind, store_read, mret, Store_ret. simpl.
  rewrite Hc. simpl. apply nonempty_true in Hco. rewrite Hco. simpl.
  by rewrite reconstruct_chroma_record.
Qed.

Lemma get_version_absent uuid4 id (c : collection) :
  c !! id = None → get_version uuid4 id c = Outcome None c [].
Proof.
  intros Hc. unfold get_version.
  unfold mbind, Store_bind, store_read, mret, Store_ret. simpl.
  by rewrite Hc.
Qed.

Lemma chroma_record_stored_version st v :
  chroma_record (ContentVersion.set_status st (stored_version v))
  = chroma_record (ContentVersion.set_status st v).
Proof.
  unfold chroma_record, chroma_metadata, get_content_hash. simpl.
  rewrite <- map_fmap_compose.
  rewrite (map_fmap_ext (stored_meta ∘ read_back) stored_meta)
    by (intros; apply stored_meta_read_back).
  assert (default "" (ContentVersion.parent_version_id v
                        ≫= λ p, if nonempty p then Some p else None)
          = default "" (ContentVersion.parent_version_id v)) as ->; [|done].
  destruct (ContentVersion.parent_version_id v) as [p|]; simpl; [|done].
  destruct (nonempty p) eqn:Hp; simpl; [done|].
  by apply nonempty_false in Hp.
Qed.

Lemma update_version_status_stored uuid4 v st (c : collection) :
  valid v →
  c !! ContentVersion.id v = Some (chroma_record v) →
  update_version_status uuid4 (ContentVersion.id v) st c
  = Outcome true
      (<[ContentVersion.id v := chroma_record (ContentVersion.set_status st v)]>
         (delete (ContentVersion.id v) c))
      [delete (ContentVersion.id v) c;
       <[ContentVersion.id v := chroma_record (ContentVersion.set_status st v)]>
         (delete (ContentVersion.id v) c)].
Proof.
  intros Hv Hc. unfold update_version_status.
  unfold mbind at 1. unfold Store_bind.
  rewrite (get_version_stored uuid4 v c Hv Hc). simpl.
  unfold mbind, Store_bind, store_write. simpl.
  rewrite save_version_valid by (by destruct Hv).
  simpl. rewrite chroma_record_stored_version.
  unfold Chroma.add. by rewrite lookup_delete_eq.
Qed.
Lemma update_version_status_absent uuid4 id st (c : collection) :
  c !! id = None → update_version_status uuid4 id st c = Outcome false c [].
Proof.
  intros Hc. unfold update_version_status.
  unfold mbind at 1. unfold Store_bind.
  by rewrite (get_version_absent uuid4 id c Hc).
Qed.

(** The methods keep the store well formed. *)

Lemma store_wf_empty : store_wf ∅.
Proof. intros id r Hr. by rewrite lookup_empty in Hr. Qed.

Lemma store_wf_insert v (c : collection) :
  valid v → store_wf c →
  store_wf (<[ContentVersion.id v := chroma_record v]> c).
Proof.
  intros Hv Hc id r Hr.
  destruct (decide (ContentVersion.id v = id)) as [<-|Hne].
  - rewrite lookup_insert_eq in Hr. injection Hr as <-. by exists v.
  - rewrite lookup_insert_ne in Hr by done. by apply Hc.
Qed.

Lemma store_wf_delete id (c : collection) : store_wf c → store_wf (delete id c).
Proof.
  intros Hc id' r Hr. apply lookup_delete_Some in Hr as [_ Hr]. by apply Hc.
Qed.

Lemma save_version_wf v (c : collection) :
  store_wf c → store_wf (final (save_version v c)).
Proof.
  intros Hc. destruct (decide (valid v)) as [Hv|Hv].
  - rewrite save_version_valid by done. cbn [final]. unfold Chroma.add.
    destruct (c !! ContentVersion.id v); [done|]. by apply store_wf_insert.
  - by rewrite save_version_invalid.
Qed.

Lemma delete_version_wf id (c : collection) :
  store_wf c → store_wf (final (delete_version id c)).
Proof. apply store_wf_delete. Qed.

Lemma update_version_status_wf uuid4 id st (c : collection) :
  store_wf c → store_wf (final (update_version_status uuid4 id st c)).
Proof.
  intros Hc. destruct (c !! id) as [r|] eqn:Hr.
  - destruct (Hc id r Hr) as (v & Hv & <- & ->).
    rewrite update_version_status_stored by done. cbn [final].
    apply (store_wf_insert (ContentVersion.set_status st v));
      [done|by apply store_wf_delete].
  - by rewrite update_version_status_absent.
Qed.
End version_manager_facts.

(** ** The version store: claims *)

Section version_store_claims.
Context `{PyBuiltins}.

(** C5 (as amended). For a version with non-empty id, chapter id and
    content whose id the store does not hold yet, [save_version] succeeds
    and [get_version] of its id then returns a version with the same id,
    chapter id, content, content hash, status, agent type and creation
    time; the parent id is the saved one, an empty string read back as
    none; the metadata has the saved keys, each value replaced by the
    string it was stored as. The version read back is the saved one when
    all its metadata values are strings and its parent id is not the empty
    string. *)
Theorem save_version_get_version_round_trip uuid4 v (c : collection) :
  valid v →
  c !! ContentVersion.id v = None →
  let saved := save_version v c in
  result saved = true
  ∧ ∃ v',
      result (get_version uuid4 (ContentVersion.id v) (final saved))
      = Some v'
      ∧ ContentVersion.id v' = ContentVersion.id v
      ∧ ContentVersion.chapter_id v' = ContentVersion.chapter_id v
      ∧ ContentVersion.content v' = ContentVersion.content v
      ∧ get_content_hash v' = get_content_hash v
      ∧ ContentVersion.status v' = ContentVersion.status v
      ∧ ContentVersion.agent_type v' = ContentVersion.agent_type v
      ∧ ContentVersion.created_at v' = ContentVersion.created_at v
      ∧ ContentVersion.parent_version_id v'
        = (ContentVersion.parent_version_id v
             ≫= λ p, if nonempty p then Some p else None)
      ∧ ContentVersion.metadata v'
        = read_back <$> ContentVersion.metadata v
      ∧ ((∀ key value,
            ContentVersion.metadata v !! key = Some value →
            is_PStr value = true)
         → ContentVersion.parent_version_id v ≠ Some ""
         → v' = v).
Proof.
  intros Hv Hfresh saved. subst saved.
  rewrite save_version_valid by done. cbn [result final trace].
  split; [done|]. exists (stored_version v). split.
  - rewrite get_version_stored; [done..|].
    unfold Chroma.add. by rewrite Hfresh, lookup_insert_eq.
  - repeat split; try done.
    intros Hstr Hparent. destruct v as [i ch co st ag md cr pa].
    unfold stored_version. simpl in *. f_equal.
    + rewrite <- (map_fmap_id md) at 2. apply map_fmap_ext.
      intros key value Hkey. apply Hstr in Hkey.
      destruct value; try done. apply read_back_PStr.
    + destruct pa as [p|]; simpl; [|done].
      destruct (nonempty p) eqn:Hp; [done|].
      apply nonempty_false in Hp. by subst p.
Qed.

(** C1 (as amended). For an id held by a store that [save_version] built,
    [update_version_status] succeeds by deleting the record and adding it
    again with the new status: the store passes through one intermediate
    state, in which the id is absent, and ends with the id present,
    carrying the new status and otherwise the record it had; no other
    record changes. *)
Theorem update_version_status_delete_then_reinsert uuid4 id st
    (c : collection) :
  store_wf c →
  is_Some (c !! id) →
  let run := update_version_status uuid4 id st c in
  result run = true
  ∧ (∃ between,
       trace run = [between; final run]
       ∧ between !! id = None
       ∧ ∀ id', id' ≠ id → between !! id' = c !! id')
  ∧ (∃ v,
       c !! id = Some (chroma_record v)
       ∧ final run !! id
         = Some (chroma_record (ContentVersion.set_status st v)))
  ∧ (∀ id', id' ≠ id → final run !! id' = c !! id')
  ∧ store_wf (final run).
Proof.
  intros Hwf [r Hr] run.
  assert (store_wf (final run)) as Hfinal
    by apply update_version_status_wf, Hwf.
  subst run. destruct (Hwf id r Hr) as (v & Hv & <- & ->).
  rewrite update_version_status_stored in * by done.
  cbn [result final trace] in *.
  split; [done|]. split; [|split; [|split]].
  - eexists. split; [done|]. split; [apply lookup_delete_eq|].
    intros id Hid. by rewrite lookup_delete_ne.
  - exists v. split; [done|]. apply lookup_insert_eq.
  - intros id Hid. by rewrite lookup_insert_ne, lookup_delete_ne.
  - done.
Qed.

(** C6 (as amended). [delete_version] reports success for every id,
    whether the store holds it or not; afterwards the id is absent, and
    the store is unchanged when the id was absent before. *)
Theorem delete_version_always_succeeds id (c : collection) :
  result (delete_version id c) = true
  ∧ final (delete_version id c) !! id = None
  ∧ (c !! id = None → final (delete_version id c) = c).
Proof.
  unfold delete_version. simpl. split; [done|]. split.
  - apply lookup_delete_eq.
  - apply delete_id.
Qed.

(** C10. A version built by the constructor has a non-empty id, whatever
    object was passed as its id, and [save_version] rejects it exactly
    when its chapter id or its content is empty. *)
Theorem constructed_version_has_id uuid4 id chapter_id content status
    agent_type metadata created_at parent_version_id (c : collection) :
  let version :=
    ContentVersion_init uuid4 id chapter_id content status agent_type
      metadata created_at parent_version_id in
  ContentVersion.id version ≠ ""
  ∧ (result (save_version version c) = false
     ↔ chapter_id = "" ∨ content = "").
Proof.
  intros version.
  assert (ContentVersion.id version ≠ "") as Hid.
  { subst version. unfold ContentVersion_init. simpl.
    destruct (truthy id) eqn:Hid; simpl; [|apply uuid_str_nonempty].
    destruct id; try (by apply py_str_truthy).
    simpl in Hid. by apply nonempty_true. }
  split; [done|].
  destruct (decide (chapter_id = "")) as [->|Hch].
  { rewrite save_version_invalid; [by split; [left|]|].
    by intros (_ & Hne & _). }
  destruct (decide (content = "")) as [->|Hco].
  { rewrite save_version_invalid; [by split; [right|]|].
    by intros (_ & _ & Hne). }
  rewrite save_version_valid by done. cbn [result].
  split; [done|]. by intros [?|?].
Qed.
End version_store_claims.

(** The round trip on the research text of the sample chapter, whose
    metadata is empty: what is read back is the version saved. *)
Lemma save_version_get_version_round_trip_witness :
  ∃ v',
    result (get_version 0%N "v1" (final (save_version Sample.v1 ∅))) = Some v'
    ∧ v' = Sample.v1.
Proof.
  destruct (save_version_get_version_round_trip 0%N Sample.v1 ∅)
    as (_ & v' & Hget & _ & _ & _ & _ & _ & _ & _ & _ & _ & Heq).
  - repeat split; done.
  - done.
  - exists v'. split; [done|]. apply Heq; [|done].
    intros key value Hkey. simpl in Hkey. by rewrite lookup_empty in Hkey.
Defined.

(** C5, refuted as stated: a draft with the word count the workflow attaches
    is saved, and what [get_version] returns for its id is not the version
    saved (the count comes back as a string). *)
Lemma save_version_get_version_changes_metadata :
  valid Sample.v2
  ∧ result (save_version Sample.v2 ∅) = true
  ∧ result (get_version 0%N "v2" (final (save_version Sample.v2 ∅)))
    ≠ Some Sample.v2.
Proof.
  assert (valid Sample.v2) as Hv by (by repeat split).
  split; [done|]. rewrite save_version_valid by done.
  cbn [result final trace]. split; [done|].
  rewrite (get_version_stored 0%N Sample.v2); [|done..].
  cbn [result]. intros Heq.
  assert (ContentVersion.metadata (stored_version Sample.v2) !! "word_count"
          = Some (PInt 2)) as Hcount
    by (apply (inj Some) in Heq; by rewrite Heq).
  unfold stored_version, Sample.v2 in Hcount.
  cbn [ContentVersion.metadata] in Hcount.
  by rewrite lookup_fmap, lookup_singleton_eq in Hcount.
Qed.

(** The store that holds the research text alone. *)
Lemma Sample_store1_v1 :
  Sample.store1 !! "v1" = Some (chroma_record Sample.v1).
Proof.
  unfold Sample.store1. rewrite save_version_valid by (by repeat split).
  cbn [final]. unfold Chroma.add. rewrite lookup_empty.
  apply lookup_insert_eq.
Qed.

(** Publishing the research text of the sample chapter: one state lies
    between, and it lacks the record. *)
Lemma update_version_status_delete_then_reinsert_witness :
  ∃ between,
    trace (update_version_status 0%N "v1" ContentStatus.PUBLISHED Sample.store1)
    = [between;
       final (update_version_status 0%N "v1" ContentStatus.PUBLISHED
                Sample.store1)]
    ∧ between !! "v1" = None.
Proof.
  destruct (update_version_status_delete_then_reinsert 0%N "v1"
              ContentStatus.PUBLISHED Sample.store1)
    as (_ & (between & Htrace & Habsent & _) & _).
  - apply save_version_wf, store_wf_empty.
  - rewrite Sample_store1_v1. by eexists.
  - exists between. exact (conj Htrace Habsent).
Defined.

(** C1, refuted as stated: while the status of a stored version is updated,
    the store passes through a state that lacks its record. *)
Lemma update_version_status_exposes_absence :
  is_Some (Sample.store1 !! "v1")
  ∧ ¬ never_absent "v1"
        (trace (update_version_status 0%N "v1" ContentStatus.PUBLISHED
                  Sample.store1)).
Proof.
  assert (valid Sample.v1) as Hv by (by repeat split).
  split; [by rewrite Sample_store1_v1|].
  rewrite (update_version_status_stored 0%N Sample.v1 _ _ Hv Sample_store1_v1).
  cbn [trace]. intros Hall. apply Forall_cons in Hall as [[r Hr] _].
  rewrite lookup_delete_eq in Hr. discriminate Hr.
Qed.

(** C6, refuted as stated: deleting an id that no store ever held reports
    success. *)
Lemma delete_version_unknown_id_succeeds :
  (∅ : collection) !! "ghost" = None
  ∧ result (delete_version "ghost" ∅) = true.
Proof. done. Qed.

(** ** The review queue: claims *)

Lemma Qltb_lt x y : Qltb x y = true ↔ (x < y)%Q.
Proof.
  unfold Qltb. rewrite negb_true_iff, <- not_true_iff_false, Qle_bool_iff.
  split; [apply Qnot_le_lt | apply Qlt_not_le].
Qed.

Section review_queue_claims.
Context `{PyBuiltins}.

(** C7. For a review id of the pending dictionary, [complete_review]
    returns a new version with status [human_edited] and agent
    [human_editor], whose parent is the version under review and whose
    metadata carries the feedback, the reviewer's name and the review id;
    the request, marked completed with the feedback as its notes, leaves
    the pending dictionary and enters the completed one. For any other
    review id it returns nothing and changes nothing. *)
Theorem complete_review_spec uuid4 completed_at now review_id
    updated_content feedback reviewer_name (self : HumanReviewInterface) :
  let run :=
    complete_review uuid4 completed_at now review_id updated_content
      feedback reviewer_name self in
  match pending_reviews self !! review_id with
  | Some review =>
      ∃ new_version,
        run.1 = Some new_version
        ∧ ContentVersion.status new_version = ContentStatus.HUMAN_EDITED
        ∧ ContentVersion.agent_type new_version = AgentType.HUMAN_EDITOR
        ∧ ContentVersion.parent_version_id new_version
          = Some (ContentVersion.id (ReviewRequest.version review))
        ∧ ContentVersion.chapter_id new_version
          = ReviewRequest.chapter_id review
        ∧ ContentVersion.content new_version = updated_content
        ∧ ContentVersion.metadata new_version !! "feedback"
          = Some (PStr feedback)
        ∧ ContentVersion.metadata new_version !! "reviewer_name"
          = Some (PStr reviewer_name)
        ∧ ContentVersion.metadata new_version !! "review_id"
          = Some (PStr review_id)
        ∧ pending_reviews run.2 = delete review_id (pending_reviews self)
        ∧ completed_reviews run.2
          = <[review_id :=
                ReviewRequest.mk (ReviewRequest.id review)
                  (ReviewRequest.chapter_id review)
                  (ReviewRequest.version review)
                  (ReviewRequest.review_type review)
                  (ReviewRequest.submitted_at review) "completed" feedback]>
              (completed_reviews self)
  | None => run = (None, self)
  end.
Proof.
  intros run. subst run. unfold complete_review.
  destruct (pending_reviews self !! review_id) as [review|]; [|done].
  eexists. split; [done|]. cbn [snd pending_reviews completed_reviews].
  unfold ContentVersion_init.
  cbn [ContentVersion.status ContentVersion.agent_type
       ContentVersion.parent_version_id ContentVersion.chapter_id
       ContentVersion.content ContentVersion.metadata].
  repeat split; rewrite lookup_fmap; by simplify_map_eq.
Qed.

(** C8. The urgency of a request is [high] exactly when more than 72
    hours have passed since it was submitted, [medium] exactly when more
    than 24 but not more than 72 have, and [low] otherwise; 25 hours give
    [medium], 73 hours [high] and one hour [low]. *)
Theorem _calculate_urgency_spec (now submitted_at : datetime) :
  let age := hours_since_submission now submitted_at in
  let hours (n : Z) : Z := (n * 3600 * 1000000)%Z in
  (_calculate_urgency now submitted_at = "high" ↔ (72 < age)%Q)
  ∧ (_calculate_urgency now submitted_at = "medium"
     ↔ (24 < age)%Q ∧ ¬ (72 < age)%Q)
  ∧ (_calculate_urgency now submitted_at = "low" ↔ ¬ (24 < age)%Q)
  ∧ _calculate_urgency (submitted_at + hours 25)%Z submitted_at = "medium"
  ∧ _calculate_urgency (submitted_at + hours 73)%Z submitted_at = "high"
  ∧ _calculate_urgency (submitted_at + hours 1)%Z submitted_at = "low".
Proof.
  intros age hours. subst age hours. unfold _calculate_urgency.
  split; [|split; [|split]].
  - rewrite <- Qltb_lt.
    destruct (Qltb 72 _); [done|]. by destruct (Qltb 24 _).
  - rewrite <- !Qltb_lt.
    destruct (Qltb 72 _); [split; [done|by intros [_ []]]|].
    destruct (Qltb 24 _); split; first [done | by intros []].
  - rewrite <- Qltb_lt.
    destruct (Qltb 72 _) eqn:H72.
    + split; [done|]. intros []. apply Qltb_lt.
      apply Qltb_lt in H72. by apply Qlt_trans with 72%Q.
    + destruct (Qltb 24 _); split; first [done | by intros []].
  - unfold hours_since_submission. by rewrite !Z.add_simpl_l.
Qed.

(** C9. A request rejected by [reject_review] stays in the pending
    dictionary with status [rejected]: [get_review_details] still finds
    it, [get_pending_reviews] leaves it out, and [complete_review] on it
    still succeeds, returning a new [human_edited] version and moving the
    request into the completed dictionary with status [completed]. *)
Theorem reject_review_then_complete_review uuid4 completed_at now
    review_id reason updated_content feedback reviewer_name
    (self : HumanReviewInterface) review :
  pending_reviews self !! review_id = Some review →
  let rejected := reject_review review_id reason self in
  let completed :=
    complete_review uuid4 completed_at now review_id updated_content
      feedback reviewer_name rejected.2 in
  rejected.1 = true
  ∧ pending_reviews rejected.2 !! review_id
    = Some (ReviewRequest.mk (ReviewRequest.id review)
              (ReviewRequest.chapter_id review)
              (ReviewRequest.version review)
              (ReviewRequest.review_type review)
              (ReviewRequest.submitted_at review) "rejected" reason)
  ∧ (∃ details,
       get_review_details review_id rejected.2 = Some details
       ∧ rd_status details = "rejected"
       ∧ rd_reviewer_notes details = reason)
  ∧ (∀ chapter_id review_type,
       get_pending_reviews chapter_id review_type rejected.2 !! review_id
       = None)
  ∧ (∃ new_version,
       completed.1 = Some new_version
       ∧ ContentVersion.status new_version = ContentStatus.HUMAN_EDITED
       ∧ ContentVersion.parent_version_id new_version
         = Some (ContentVersion.id (ReviewRequest.version review)))
  ∧ pending_reviews completed.2 !! review_id = None
  ∧ completed_reviews completed.2 !! review_id
    = Some (ReviewRequest.mk (ReviewRequest.id review)
              (ReviewRequest.chapter_id review)
              (ReviewRequest.version review)
              (ReviewRequest.review_type review)
              (ReviewRequest.submitted_at review) "completed" feedback).
Proof.
  intros Hpending rejected completed. subst completed rejected.
  unfold reject_review. rewrite Hpending.
  cbn [fst snd pending_reviews completed_reviews].
  split; [done|]. split; [apply lookup_insert_eq|].
  split; [|split].
  - unfold get_review_details. cbn [pending_reviews].
    rewrite lookup_insert_eq. by eexists.
  - intros chapter_id review_type. unfold get_pending_reviews.
    cbn [pending_reviews].
    apply map_lookup_filter_None. right. intros r Hr.
    rewrite lookup_insert_eq in Hr. injection Hr as <-.
    by intros [? _].
  - unfold complete_review. cbn [pending_reviews completed_reviews].
    rewrite lookup_insert_eq.
    cbn [fst snd pending_reviews completed_reviews].
    split; [by eexists|]. split.
    + apply lookup_delete_eq.
    + apply lookup_insert_eq.
Qed.
End review_queue_claims.

(** The sample request is rejected and then completed. *)
Lemma reject_review_then_complete_review_witness :
  (reject_review "r1" "too long" Sample.queue).1 = true
  ∧ ∃ new_version,
      (complete_review 7%N 10%Z 11%Z "r1" "Final text" "looks good" "Alice"
         (reject_review "r1" "too long" Sample.queue).2).1
      = Some new_version
      ∧ ContentVersion.status new_version = ContentStatus.HUMAN_EDITED.
Proof.
  destruct (reject_review_then_complete_review 7%N 10%Z 11%Z "r1" "too long"
              "Final text" "looks good" "Alice" Sample.queue
              Sample.pending_request)
    as (Hok & _ & _ & _ & (new_version & Hnew & Hstatus & _) & _).
  - apply lookup_singleton_eq.
  - split; [exact Hok|]. exists new_version. exact (conj Hnew Hstatus).
Defined.

(** ** Where the code departs from the specification *)

Section departures.
Context `{PyBuiltins}.



(** Every task of the research phase returns, whatever the provider does,
    so the loop over the gathered results never sees an exception. *)
Lemma gather_research_returned research_topic uuid4 now i chapters
    (c : collection) :
  Forall (λ r, ∃ b, r.1 = Returned b)
    (result (gather_research research_topic uuid4 now i chapters c)).
Proof.
  revert i c. induction chapters as [|chapter chapters IH]; intros i c.
  { constructor. }
  cbn [gather_research]. unfold mbind, Store_bind, mret, Store_ret.
  cbn [result]. constructor; [by eexists|]. apply IH.
Qed.

(** After the research phase every chapter is in the drafting phase,
    whether its research succeeded or not. *)
Lemma _research_phase_all_drafting research_topic uuid4 now chapters
    (c : collection) :
  Forall (λ chapter,
            Chapter.current_phase chapter = PublicationPhase.DRAFTING)
    (result (_research_phase research_topic uuid4 now chapters c)).
Proof.
  unfold _research_phase, mbind, Store_bind, mret, Store_ret.
  cbn [result]. apply Forall_fmap.
  eapply Forall_impl; [apply gather_research_returned|].
  intros [r chapter] [b Hb]. cbn [fst] in Hb.
  unfold check_result. cbn [fst snd]. by rewrite Hb.
Qed.
End departures.

(** C2, on the versions of an ordinary run (research text, draft, rewrite of
    the draft): the dictionary [get_version_tree] returns holds the draft
    twice, as a child of the research text and as an entry of its own made
    to hold the rewrite. And when the clock of a draft reads earlier than
    that of its root, the root's entry replaces the one that held the draft,
    which is then nowhere in the dictionary. *)
Theorem get_version_tree_chain :
  let info status agent created_at length :=
    Some (mk_version_fields status agent created_at length) in
  let tree := result (get_version_tree 0%N "ch1" Sample.store3) in
  let skewed := result (get_version_tree 0%N "ch2" Sample.skewed_store) in
  tree
  = <["v1" :=
        TreeNode "v1" (info "scraped" "scraper" "1" 13%nat)
          [TreeNode "v2" (info "ai_written" "ai_writer" "2" 10%nat) []]]>
      (<["v2" :=
           TreeNode "v2" None
             [TreeNode "v3" (info "ai_written" "ai_writer" "3" 9%nat) []]]>
         ∅)
  ∧ tree_occurrences "v2" tree = 2%nat
  ∧ skewed
    = <["r0" := TreeNode "r0" (info "scraped" "scraper" "9" 13%nat) []]> ∅
  ∧ tree_occurrences "d0" skewed = 0%nat.
Proof. vm_compute. done. Qed.

(** C3, on a stored version at distance one half of the query: it is
    returned with similarity one half, which is below the configured
    threshold. *)
Theorem search_similar_content_below_threshold :
  search_similar_content 0%N Sample.half_distance
  = [(stored_version Sample.v2, (1 # 2)%Q)]
  ∧ (1 # 2 < Config.SIMILARITY_THRESHOLD)%Q.
Proof. vm_compute. done. Qed.

(** C4, on three chapters of which the second has no research source, so
    that its research raises: after the research phase the second chapter
    is in the drafting phase like the others, with no research version. *)
Theorem _research_phase_failure_advances :
  let run :=
    _research_phase Sample.research_topic N.of_nat Z.of_nat Sample.chapters
      ∅ in
  Sample.research_topic "Two" [] [] = ResearchRaised
  ∧ Chapter.current_phase <$> result run
    = [PublicationPhase.DRAFTING; PublicationPhase.DRAFTING;
       PublicationPhase.DRAFTING]
  ∧ Chapter.research_version_id <$> result run
    = [Some "uuid-0"; None; Some "uuid-2"]
  ∧ dom (final run) = {["uuid-0"; "uuid-2"]}.
Proof. vm_compute. done. Qed.

(** * Further properties *)

(** ** Sorting, maxima and counting *)

Section list_facts.
Context {A : Type} (key : A → Z).

Lemma insert_by_key_perm x (l : list A) : insert_by_key key x l ≡ₚ x :: l.
Proof.
  induction l as [|y l IH]; simpl; [done|].
  destruct (key x <=? key y)%Z; [done|].
  rewrite IH. apply Permutation_swap.
Qed.

Lemma sort_by_key_perm (l : list A) : sort_by_key key l ≡ₚ l.
Proof.
  induction l as [|x l IH]; simpl; [done|].
  by rewrite insert_by_key_perm, IH.
Qed.

Lemma insert_by_key_sorted x (l : list A) :
  StronglySorted (λ a b, (key a ≤ key b)%Z) l →
  StronglySorted (λ a b, (key a ≤ key b)%Z) (insert_by_key key x l).
Proof.
  induction 1 as [|y l Hl IH Hy]; simpl.
  { repeat constructor. }
  destruct (key x <=? key y)%Z eqn:Hle.
  - apply Z.leb_le in Hle. constructor; [by constructor|].
    constructor; [done|]. eapply Forall_impl; [exact Hy|].
    intros z Hz. simpl in Hz. lia.
  - apply Z.leb_gt in Hle. constructor; [done|].
    rewrite insert_by_key_perm. constructor; [lia|done].
Qed.

Lemma sort_by_key_sorted (l : list A) :
  StronglySorted (λ a b, (key a ≤ key b)%Z) (sort_by_key key l).
Proof.
  induction l as [|x l IH]; simpl; [constructor|].
  by apply insert_by_key_sorted.
Qed.

Lemma max_by_key_spec x (l : list A) :
  max_by_key key x l ∈ x :: l
  ∧ Forall (λ y, (key y ≤ key (max_by_key key x l))%Z) (x :: l).
Proof.
  revert x. induction l as [|y l IH]; intros x; simpl.
  { split; [apply list_elem_of_here|]. by repeat constructor. }
  destruct (IH (if (key x <? key y)%Z then y else x)) as [Hin Hall].
  apply Forall_cons in Hall as [Hhd Htl].
  destruct (key x <? key y)%Z eqn:Hlt.
  - apply Z.ltb_lt in Hlt. split; [by apply list_elem_of_further|].
    repeat constructor; [lia|done|done].
  - apply Z.ltb_ge in Hlt. split.
    + apply elem_of_cons in Hin as [->|Hin]; [apply list_elem_of_here|].
      by do 2 apply list_elem_of_further.
    + repeat constructor; [done|lia|done].
Qed.
End list_facts.

Section count_facts.
Context `{Countable K}.

Lemma count_values_foldl (l : list K) (counts : gmap K nat) k :
  default 0%nat (foldl count_step counts l !! k)
  = (default 0%nat (counts !! k) + length (filter (λ x, x = k) l))%nat.
Proof.
  revert counts. induction l as [|x l IH]; intros counts; simpl; [lia|].
  rewrite IH. unfold count_step.
  rewrite filter_cons. destruct (decide (x = k)) as [->|Hne].
  - rewrite lookup_insert_eq. simpl. lia.
  - by rewrite lookup_insert_ne.
Qed.

Lemma count_values_positive (l : list K) (counts : gmap K nat) k n :
  (∀ k n, counts !! k = Some n → (0 < n)%nat) →
  foldl count_step counts l !! k = Some n → (0 < n)%nat.
Proof.
  revert counts. induction l as [|x l IH]; intros counts Hpos; simpl.
  { apply Hpos. }
  apply IH. intros k' n'. unfold count_step.
  destruct (decide (x = k')) as [->|Hne].
  - rewrite lookup_insert_eq. intros [= <-]. lia.
  - rewrite lookup_insert_ne by done. apply Hpos.
Qed.

Lemma count_values_spec (l : list K) k :
  count_values l !! k
  = if decide (k ∈ l) then Some (length (filter (λ x, x = k) l)) else None.
Proof.
  pose proof (count_values_foldl l ∅ k) as Hcount.
  rewrite lookup_empty in Hcount. simpl in Hcount.
  unfold count_values.
  destruct (foldl count_step ∅ l !! k) as [n|] eqn:Hk; simpl in Hcount.
  - assert (0 < n)%nat as Hn.
    { eapply count_values_positive; [|exact Hk].
      intros ??. by rewrite lookup_empty. }
    subst n. destruct (decide (k ∈ l)) as [|Hnot]; [done|].
    exfalso. destruct (filter (λ x, x = k) l) as [|y ?] eqn:Hf;
      [simpl in Hn; lia|].
    assert (y ∈ filter (λ x, x = k) l) as Hy
      by (rewrite Hf; apply list_elem_of_here).
    apply list_elem_of_filter in Hy as [-> ?]. done.
  - destruct (decide (k ∈ l)) as [Hin|]; [|done].
    assert (k ∈ filter (λ x, x = k) l) as Hk'
      by (by apply list_elem_of_filter).
    destruct (filter (λ x, x = k) l); [by apply elem_of_nil in Hk'|].
    simpl in Hcount. lia.
Qed.
End count_facts.

(** ** The version store *)

Section version_store_facts.
Context `{PyBuiltins}.

Lemma get_chapter_versions_run uuid4 chapter_id (c : collection) :
  get_chapter_versions uuid4 chapter_id c
  = Outcome
      (match
         mapM (λ r, reconstruct uuid4 (Chroma.document r) (Chroma.metadata r))
           (Chroma.get_where "chapter_id" chapter_id c)
       with
       | Some versions => sort_by_key ContentVersion.created_at versions
       | None => []
       end) c [].
Proof. done. Qed.

(** X1. Whatever the store holds, [get_chapter_versions] returns its
    versions in non-decreasing order of creation time, and it does not
    write to the store. *)
Theorem get_chapter_versions_sorted uuid4 chapter_id (c : collection) :
  StronglySorted
    (λ v w, (ContentVersion.created_at v ≤ ContentVersion.created_at w)%Z)
    (result (get_chapter_versions uuid4 chapter_id c))
  ∧ final (get_chapter_versions uuid4 chapter_id c) = c
  ∧ trace (get_chapter_versions uuid4 chapter_id c) = [].
Proof.
  rewrite get_chapter_versions_run. cbn [result final trace].
  split; [|done].
  destruct (mapM _ _); [apply sort_by_key_sorted|constructor].
Qed.

Lemma reconstruct_stored uuid4 (c : collection) id r :
  store_wf c → c !! id = Some r →
  ∃ v, valid v ∧ ContentVersion.id v = id ∧ r = chroma_record v
       ∧ reconstruct uuid4 (Chroma.document r) (Chroma.metadata r)
         = Some (stored_version v).
Proof.
  intros Hwf Hr. destruct (Hwf id r Hr) as (v & Hv & Hid & ->).
  exists v. split; [done|]. split; [done|]. split; [done|].
  cbn [chroma_record Chroma.document Chroma.metadata].
  apply reconstruct_chroma_record. by destruct Hv.
Qed.

Lemma elem_of_get_where key s (c : collection) r :
  r ∈ Chroma.get_where key s c
  ↔ (∃ id, c !! id = Some r) ∧ Chroma.metadata r !! key = Some (Chroma.Str s).
Proof.
  unfold Chroma.get_where. rewrite list_elem_of_filter, list_elem_of_fmap.
  split.
  - intros [Hkey ([id r'] & -> & Hin)]. split; [|done].
    exists id. by apply elem_of_map_to_list.
  - intros [[id Hid] Hkey]. split; [done|].
    exists (id, r). split; [done|]. by apply elem_of_map_to_list.
Qed.

Lemma get_chapter_versions_elem uuid4 chapter_id (c : collection) v' :
  store_wf c →
  v' ∈ result (get_chapter_versions uuid4 chapter_id c)
  ↔ ∃ v, c !! ContentVersion.id v = Some (chroma_record v)
         ∧ ContentVersion.chapter_id v = chapter_id
         ∧ v' = stored_version v.
Proof.
  intros Hwf. rewrite get_chapter_versions_run. cbn [result].
  set (f := λ r, reconstruct uuid4 (Chroma.document r) (Chroma.metadata r)).
  set (found := Chroma.get_where "chapter_id" chapter_id c).
  assert (∀ r, r ∈ found →
            ∃ v, c !! ContentVersion.id v = Some (chroma_record v)
                 ∧ ContentVersion.chapter_id v = chapter_id
                 ∧ r = chroma_record v ∧ f r = Some (stored_version v))
    as Hfound.
  { intros r [[id Hid] Hch]%elem_of_get_where.
    destruct (reconstruct_stored uuid4 c id r Hwf Hid)
      as (v & Hv & <- & -> & Hrec).
    exists v. split; [done|]. split; [|done].
    cbn [chroma_record Chroma.metadata] in Hch.
    destruct (chroma_metadata_fields v) as (_ & Hfield & _).
    rewrite Hfield in Hch. by injection Hch. }
  assert (is_Some (mapM f found)) as [versions Hversions].
  { apply mapM_is_Some, Forall_forall. intros r Hr.
    destruct (Hfound r Hr) as (v & _ & _ & _ & Hf).
    unfold compose. by rewrite Hf. }
  rewrite Hversions, sort_by_key_perm.
  apply mapM_Some_1 in Hversions. split.
  - intros Hin. apply list_elem_of_lookup in Hin as [i Hi].
    destruct (Forall2_lookup_r _ _ _ _ _ Hversions Hi) as (r & Hr & Hf).
    apply list_elem_of_lookup_2 in Hr.
    destruct (Hfound r Hr) as (v & Hc & Hch & _ & Hf').
    exists v. split; [done|]. split; [done|]. congruence.
  - intros (v & Hc & Hch & ->).
    assert (chroma_record v ∈ found) as Hin.
    { apply elem_of_get_where. split; [by eexists|].
      cbn [chroma_record Chroma.metadata].
      destruct (chroma_metadata_fields v) as (_ & Hfield & _).
      by rewrite Hfield, Hch. }
    destruct (Hfound _ Hin) as (w & _ & _ & Hw & Hf).
    apply list_elem_of_lookup in Hin as [i Hi].
    destruct (Forall2_lookup_l _ _ _ _ _ Hversions Hi) as (w' & Hw' & Hf').
    apply list_elem_of_lookup_2 in Hw'.
    assert (stored_version v = w') as ->; [|done].
    destruct (Hwf _ _ Hc) as (v0 & [Hid0 _] & Hid & _).
    assert (f (chroma_record v) = Some (stored_version v)) as Hfv.
    { unfold f. cbn [chroma_record Chroma.document Chroma.metadata].
      apply reconstruct_chroma_record. by rewrite <- Hid. }
    congruence.
Qed.

(** X2. On a store that [save_version] built, [get_chapter_versions]
    returns exactly the versions stored for the chapter, each as
    [get_version] returns it. *)
Theorem get_chapter_versions_stored uuid4 chapter_id (c : collection) v' :
  store_wf c →
  v' ∈ result (get_chapter_versions uuid4 chapter_id c)
  ↔ ∃ v, c !! ContentVersion.id v = Some (chroma_record v)
         ∧ ContentVersion.chapter_id v = chapter_id
         ∧ v' = stored_version v.
Proof. apply get_chapter_versions_elem. Qed.

Lemma get_latest_version_cases uuid4 chapter_id status (c : collection) :
  let versions := result (get_chapter_versions uuid4 chapter_id c) in
  let wanted v :=
    match status with
    | Some status => ContentVersion.status v = status
    | None => True
    end in
  match result (get_latest_version uuid4 chapter_id status c) with
  | None => ∀ v, v ∈ versions → ¬ wanted v
  | Some latest =>
      latest ∈ versions ∧ wanted latest
      ∧ ∀ v, v ∈ versions → wanted v →
          (ContentVersion.created_at v ≤ ContentVersion.created_at latest)%Z
  end.
Proof.
  intros versions wanted. unfold get_latest_version.
  unfold mbind, Store_bind, mret, Store_ret. cbn [result].
  fold versions.
  set (candidates :=
         match status with
         | Some status =>
             filter (λ v, ContentVersion.status v = status) versions
         | None => versions
         end).
  assert (∀ v, v ∈ candidates ↔ v ∈ versions ∧ wanted v) as Hcand.
  { intros v. subst candidates wanted. destruct status as [st|].
    - rewrite list_elem_of_filter. tauto.
    - tauto. }
  destruct candidates as [|v0 rest] eqn:Hc.
  - intros v Hv Hw. by apply (elem_of_nil v), Hcand.
  - destruct (max_by_key_spec ContentVersion.created_at v0 rest)
      as [Hin Hmax].
    apply Hcand in Hin as [Hin Hw]. split; [done|]. split; [done|].
    intros v Hv Hwv. rewrite Forall_forall in Hmax.
    apply Hmax, Hcand. by split.
Qed.

(** X3. [get_latest_version] returns nothing exactly when the chapter has
    no version of the wanted status (no version at all when no status is
    given); otherwise it returns one of these versions, and none of them
    was created later. *)
Theorem get_latest_version_spec uuid4 chapter_id status (c : collection) :
  let versions := result (get_chapter_versions uuid4 chapter_id c) in
  let wanted v :=
    match status with
    | Some status => ContentVersion.status v = status
    | None => True
    end in
  match result (get_latest_version uuid4 chapter_id status c) with
  | None => ∀ v, v ∈ versions → ¬ wanted v
  | Some latest =>
      latest ∈ versions ∧ wanted latest
      ∧ ∀ v, v ∈ versions → wanted v →
          (ContentVersion.created_at v ≤ ContentVersion.created_at latest)%Z
  end.
Proof. apply get_latest_version_cases. Qed.

(** X4. [save_version] returns [False] exactly when the id, the chapter id
    or the content of the version is empty, and then it writes nothing. *)
Theorem save_version_rejects_without_write v (c : collection) :
  (result (save_version v c) = false
   ↔ ContentVersion.id v = "" ∨ ContentVersion.chapter_id v = ""
     ∨ ContentVersion.content v = "")
  ∧ (result (save_version v c) = false →
     final (save_version v c) = c ∧ trace (save_version v c) = []).
Proof.
  destruct (decide (valid v)) as [Hv|Hv].
  - rewrite save_version_valid by done. cbn [result]. split; [|done].
    split; [done|]. destruct Hv as (? & ? & ?). by intros [|[|]].
  - rewrite save_version_invalid by done. cbn [result final trace].
    split; [|done]. split; [|done]. intros _.
    destruct (decide (ContentVersion.id v = "")); [by left|].
    destruct (decide (ContentVersion.chapter_id v = "")); [by right; left|].
    destruct (decide (ContentVersion.content v = "")); [by right; right|].
    by destruct Hv.
Qed.

(** X5. [update_version_status] of an id the store does not hold returns
    [False] and writes nothing. *)
Theorem update_version_status_unknown_id uuid4 id st (c : collection) :
  c !! id = None →
  update_version_status uuid4 id st c = Outcome false c [].
Proof. apply update_version_status_absent. Qed.

(** X6. On a store that [save_version] built, [get_version] after
    [update_version_status] returns the version it returned before, with
    the new status and nothing else changed. *)
Theorem update_version_status_then_get_version uuid4 uuid4' id st
    (c : collection) :
  store_wf c →
  is_Some (c !! id) →
  ∃ v,
    result (get_version uuid4 id c) = Some v
    ∧ result (get_version uuid4' id
                (final (update_version_status uuid4 id st c)))
      = Some (ContentVersion.set_status st v).
Proof.
  intros Hwf [r Hr]. destruct (Hwf id r Hr) as (v & Hv & <- & ->).
  exists (stored_version v). split.
  - by rewrite get_version_stored.
  - rewrite update_version_status_stored by done. cbn [final].
    rewrite (get_version_stored uuid4' (ContentVersion.set_status st v));
      [done|done|].
    apply lookup_insert_eq.
Qed.

(** X7. After [delete_version] of an id, [get_version] finds nothing under
    that id and finds under every other id what it found before. *)
Theorem delete_version_then_get_version uuid4 id (c : collection) :
  result (get_version uuid4 id (final (delete_version id c))) = None
  ∧ ∀ id', id' ≠ id →
      result (get_version uuid4 id' (final (delete_version id c)))
      = result (get_version uuid4 id' c).
Proof.
  unfold delete_version, get_version.
  unfold mbind, Store_bind, mret, Store_ret, store_read, store_write.
  cbn [result final]. split.
  - by rewrite lookup_delete_eq.
  - intros id' Hne. by rewrite lookup_delete_ne.
Qed.
Lemma get_version_wf uuid4 id (c : collection) v :
  store_wf c →
  result (get_version uuid4 id c) = Some v →
  ∃ v0, valid v0 ∧ ContentVersion.id v0 = id
        ∧ c !! id = Some (chroma_record v0) ∧ v = stored_version v0.
Proof.
  intros Hwf. destruct (c !! id) as [r|] eqn:Hr.
  - destruct (Hwf id r Hr) as (v0 & Hv0 & <- & ->).
    rewrite get_version_stored by done. intros [= <-]. by exists v0.
  - by rewrite get_version_absent.
Qed.

Lemma run_store_call_wf (c : collection) call :
  store_wf c → store_wf (run_store_call c call).
Proof.
  intros Hwf. destruct call; cbn [run_store_call].
  - by apply save_version_wf.
  - by apply update_version_status_wf.
  - by apply delete_version_wf.
Qed.

(** X27. Every store that calls of [save_version],
    [update_version_status] and [delete_version] build from the empty
    collection keeps each record under the id of the version it was made
    from, and whatever [get_version] finds there under an id is a version
    with that id and with non-empty chapter id and content. *)
Theorem run_store_calls_wf (calls : list store_call) :
  store_wf (run_store_calls calls)
  ∧ ∀ uuid4 id v,
      result (get_version uuid4 id (run_store_calls calls)) = Some v →
      ContentVersion.id v = id ∧ valid v.
Proof.
  assert (store_wf (run_store_calls calls)) as Hwf.
  { unfold run_store_calls.
    pose proof store_wf_empty as Hempty. revert Hempty.
    generalize (∅ : collection).
    induction calls as [|call calls IH]; intros c Hc; [done|].
    simpl. by apply IH, run_store_call_wf. }
  split; [done|]. intros uuid4 id v Hv.
  destruct (get_version_wf _ _ _ _ Hwf Hv) as (v0 & Hv0 & <- & _ & ->).
  split; [done|]. exact Hv0.
Qed.

(** X28. After a version is saved that is newer than every version the
    store holds for its chapter, [get_latest_version] of the chapter
    returns it, as [get_version] does. *)
Theorem save_version_then_get_latest_version uuid4 v (c : collection) :
  store_wf c →
  valid v →
  c !! ContentVersion.id v = None →
  (∀ w, c !! ContentVersion.id w = Some (chroma_record w) →
        ContentVersion.chapter_id w = ContentVersion.chapter_id v →
        (ContentVersion.created_at w < ContentVersion.created_at v)%Z) →
  result (get_latest_version uuid4 (ContentVersion.chapter_id v) None
            (final (save_version v c)))
  = Some (stored_version v)
  ∧ result (get_version uuid4 (ContentVersion.id v)
              (final (save_version v c)))
    = Some (stored_version v).
Proof.
  intros Hwf Hv Hfresh Hnewest.
  assert (store_wf (final (save_version v c))) as Hwf'
    by (by apply save_version_wf).
  rewrite save_version_valid in * by done. cbn [final] in *.
  unfold Chroma.add in *. rewrite Hfresh in *.
  set (c' := <[ContentVersion.id v := chroma_record v]> c) in *.
  assert (c' !! ContentVersion.id v = Some (chroma_record v)) as Hnew
    by apply lookup_insert_eq.
  split; [|by rewrite get_version_stored].
  pose proof (get_latest_version_cases uuid4 (ContentVersion.chapter_id v)
                None c') as Hlatest.
  cbv zeta in Hlatest.
  assert (stored_version v
          ∈ result (get_chapter_versions uuid4 (ContentVersion.chapter_id v)
                      c')) as Hin.
  { apply get_chapter_versions_elem; [done|]. by exists v. }
  destruct (result (get_latest_version uuid4 _ None c')) as [latest|].
  2:{ by destruct (Hlatest _ Hin). }
  destruct Hlatest as (Hlatest & _ & Hmax).
  specialize (Hmax _ Hin I).
  apply get_chapter_versions_elem in Hlatest as (w & Hw & Hch & ->);
    [|done].
  destruct (decide (ContentVersion.id w = ContentVersion.id v)) as [Hid|Hid].
  - rewrite Hid, Hnew in Hw. injection Hw as Hcontent Hmeta.
    assert (ContentVersion.id v ≠ "") as Hne by (by destruct Hv).
    pose proof (reconstruct_chroma_record uuid4 v Hne) as Hrv.
    rewrite <- Hid in Hne.
    pose proof (reconstruct_chroma_record uuid4 w Hne) as Hrw.
    rewrite Hcontent, Hmeta, Hrw in Hrv. congruence.
  - subst c'. rewrite lookup_insert_ne in Hw by done.
    specialize (Hnewest w Hw Hch). cbn [stored_version
      ContentVersion.created_at] in Hmax. lia.
Qed.
End version_store_facts.

Section version_store_facts_2.
Context `{PyBuiltins}.



Lemma tree_step_flat (tree : gmap string tree_node) version :
  map_Forall flat_entry tree → map_Forall flat_entry (tree_step tree version).
Proof.
  intros Htree. unfold tree_step.
  assert (flat_entry (ContentVersion.id version) (version_info version))
    as Hinfo by (split; [done|constructor]).
  destruct (ContentVersion.parent_version_id version) as [parent|];
    [|by apply map_Forall_insert_2].
  destruct (nonempty parent); [|by apply map_Forall_insert_2].
  set (tree' := match tree !! parent with
                | Some _ => tree
                | None => <[parent:=TreeNode parent None []]> tree
                end).
  assert (map_Forall flat_entry tree') as Htree'.
  { subst tree'. destruct (tree !! parent); [done|].
    apply map_Forall_insert_2; [|done]. split; [done|constructor]. }
  intros k n. rewrite lookup_alter.
  destruct (decide (parent = k)) as [->|Hne]; [|apply Htree'].
  destruct (tree' !! k) as [[id info children]|] eqn:Hk; [|done].
  intros [= <-]. destruct (Htree' k _ Hk) as [Hid Hchildren].
  split; [done|]. cbn [append_child tree_node_children] in *.
  apply Forall_app. split; [done|].
  constructor; [|constructor]. split; [done|by eexists].
Qed.

(** X9. The dictionary [get_version_tree] returns is two levels deep at
    most, whatever the store holds: every entry is keyed by its own id, and
    every child of an entry is the entry of a version and has no children
    of its own. *)
Theorem get_version_tree_flat uuid4 chapter_id (c : collection) :
  map_Forall flat_entry (result (get_version_tree uuid4 chapter_id c)).
Proof.
  unfold get_version_tree, mbind, Store_bind, mret, Store_ret.
  cbn [result].
  generalize (result (get_chapter_versions uuid4 chapter_id c)).
  intros versions.
  assert (map_Forall flat_entry (∅ : gmap string tree_node)) as Hempty
    by apply map_Forall_empty.
  revert Hempty. generalize (∅ : gmap string tree_node).
  induction versions as [|v versions IH]; intros tree Htree; [done|].
  simpl. apply IH. by apply tree_step_flat.
Qed.

(** X10. [get_statistics] counts every record of the store once: the total
    is the number of records, and each distribution maps a status, agent or
    chapter to the number of records that carry it, with no entry for one
    that no record carries. *)
Theorem get_statistics_counts db_path (c : collection) :
  let stats := result (get_statistics db_path c) in
  let records := snd <$> map_to_list c in
  let counted key (distribution : gmap Chroma.value nat) :=
    ∀ k, distribution !! k
         = if decide (k ∈ get_or_unknown key <$> records)
           then Some (length (filter (λ r, get_or_unknown key r = k) records))
           else None in
  total_versions stats = size c
  ∧ counted "status" (status_distribution stats)
  ∧ counted "agent_type" (agent_distribution stats)
  ∧ counted "chapter_id" (chapter_distribution stats)
  ∧ final (get_statistics db_path c) = c.
Proof.
  intros stats records counted. subst stats counted.
  unfold get_statistics, mbind, Store_bind, mret, Store_ret, store_read.
  cbn [result final total_versions status_distribution agent_distribution
       chapter_distribution].
  fold records.
  assert (∀ key k,
            length (filter (λ x, x = k) (get_or_unknown key <$> records))
            = length (filter (λ r, get_or_unknown key r = k) records))
    as Hlen.
  { intros key k. induction records as [|r rs IH]; [done|].
    rewrite fmap_cons, !filter_cons.
    destruct (decide (get_or_unknown key r = k)); simpl; by rewrite IH. }
  split.
  { subst records. by rewrite length_fmap, length_map_to_list. }
  repeat split; try (intros k; by rewrite count_values_spec, Hlen).
Qed.
End version_store_facts_2.

(** ** Serialization of versions *)

Lemma pyval_size_elem x (l : list pyval) :
  x ∈ l → (pyval_size x < pyval_size (PList l))%nat.
Proof.
  intros Hx. cbn [pyval_size].
  induction Hx as [x l|x y l Hx IH]; rewrite fmap_cons; simpl; lia.
Qed.

Lemma pyval_size_lookup k x (m : gmap string pyval) :
  m !! k = Some x → (pyval_size x < pyval_size (PDict m))%nat.
Proof.
  cbn [pyval_size]. induction m as [|i y m Hi IH] using map_ind.
  { by rewrite lookup_empty. }
  rewrite map_fold_insert_L; [|intros; lia|done].
  destruct (decide (i = k)) as [->|Hne].
  - rewrite lookup_insert_eq. intros [= ->]. lia.
  - rewrite lookup_insert_ne by done. intros Hk%IH. lia.
Qed.

Lemma map_fold_andb (p : pyval → bool) (m : gmap string pyval) :
  map_fold (λ _ v acc, p v && acc) true m = true
  ↔ map_Forall (λ _ v, p v = true) m.
Proof.
  induction m as [|i y m Hi IH] using map_ind.
  { split; [intros _; apply map_Forall_empty|done]. }
  rewrite map_fold_insert_L; [|intros; by rewrite !andb_assoc,
    (andb_comm (p z1))|done].
  rewrite andb_true_iff, IH, map_Forall_insert by done. done.
Qed.

Section serialization.
Context `{PyBuiltins}.

Lemma _make_serializable_facts n : ∀ v,
  (pyval_size v < n)%nat →
  serializable (_make_serializable v) = true
  ∧ _make_serializable (_make_serializable v) = _make_serializable v
  ∧ (serializable v = true → _make_serializable v = v).
Proof.
  induction n as [|n IH]; intros v Hsize; [lia|].
  destruct v as [| | | | | | |l|m]; try done.
  - assert (∀ x, x ∈ l →
              serializable (_make_serializable x) = true
              ∧ _make_serializable (_make_serializable x)
                = _make_serializable x
              ∧ (serializable x = true → _make_serializable x = x)) as Hl.
    { intros x Hx. apply IH. apply pyval_size_elem in Hx. lia. }
    cbn [_make_serializable serializable]. split; [|split].
    + apply forallb_forall. intros y Hy%list_elem_of_In.
      apply list_elem_of_fmap in Hy as (x & -> & Hx).
      by destruct (Hl x Hx) as (? & _ & _).
    + f_equal. rewrite <- list_fmap_compose.
      apply list_fmap_ext. intros i x Hx.
      apply list_elem_of_lookup_2 in Hx.
      by destruct (Hl x Hx) as (_ & ? & _).
    + intros Hall. f_equal. rewrite <- (list_fmap_id l) at 2.
      apply list_fmap_ext. intros i x Hx.
      apply list_elem_of_lookup_2 in Hx.
      destruct (Hl x Hx) as (_ & _ & Hfix). apply Hfix.
      rewrite forallb_forall in Hall. by apply Hall, list_elem_of_In.
  - assert (∀ k x, m !! k = Some x →
              serializable (_make_serializable x) = true
              ∧ _make_serializable (_make_serializable x)
                = _make_serializable x
              ∧ (serializable x = true → _make_serializable x = x)) as Hm.
    { intros k x Hx. apply IH. apply pyval_size_lookup in Hx. lia. }
    cbn [_make_serializable serializable]. split; [|split].
    + apply map_fold_andb. intros k y. rewrite lookup_fmap.
      destruct (m !! k) as [x|] eqn:Hk; [|done].
      intros [= <-]. by destruct (Hm k x Hk) as (? & _ & _).
    + f_equal. rewrite <- map_fmap_compose.
      apply map_fmap_ext. intros k x Hx.
      by destruct (Hm k x Hx) as (_ & ? & _).
    + intros Hall. f_equal. rewrite <- (map_fmap_id m) at 2.
      apply map_fmap_ext. intros k x Hx.
      destruct (Hm k x Hx) as (_ & _ & Hfix). apply Hfix.
      apply map_fold_andb in Hall. by eapply Hall.
Qed.

(** X11. What [_make_serializable] returns holds no datetime and no enum
    member at any depth; applying it again changes nothing, and it leaves
    an object that holds none as it is. *)
Theorem _make_serializable_idempotent v :
  serializable (_make_serializable v) = true
  ∧ _make_serializable (_make_serializable v) = _make_serializable v
  ∧ (serializable v = true → _make_serializable v = v).
Proof. apply (_make_serializable_facts (S (pyval_size v))). lia. Qed.

Lemma ContentVersion_init_id uuid4 id chapter_id content status agent_type
    metadata created_at parent_version_id :
  ContentVersion.id
    (ContentVersion_init uuid4 id chapter_id content status agent_type
       metadata created_at parent_version_id) ≠ "".
Proof.
  unfold ContentVersion_init. cbn [ContentVersion.id].
  destruct (truthy id) eqn:Hid; simpl; [|apply uuid_str_nonempty].
  destruct id; try (by apply py_str_truthy).
  simpl in Hid. by apply nonempty_true.
Qed.

Lemma to_dict_lookup v :
  to_dict v !! "id" = Some (PStr (ContentVersion.id v))
  ∧ to_dict v !! "chapter_id" = Some (PStr (ContentVersion.chapter_id v))
  ∧ to_dict v !! "content" = Some (PStr (ContentVersion.content v))
  ∧ to_dict v !! "status"
    = Some (PStr (ContentStatus.value (ContentVersion.status v)))
  ∧ to_dict v !! "agent_type"
    = Some (PStr (AgentType.value (ContentVersion.agent_type v)))
  ∧ to_dict v !! "metadata"
    = Some (PDict (_make_serializable <$> ContentVersion.metadata v))
  ∧ to_dict v !! "created_at"
    = Some (PStr (isoformat (ContentVersion.created_at v)))
  ∧ to_dict v !! "parent_version_id"
    = Some (optional_str (ContentVersion.parent_version_id v)).
Proof.
  unfold to_dict, asdict. rewrite !lookup_fmap.
  cbn [list_to_map foldr fst snd].
  repeat split; simplify_map_eq; try done.
  by destruct (ContentVersion.parent_version_id v).
Qed.

Lemma from_dict_fields default_uuid uuid4 (data : gmap string pyval)
    id chapter_id content status agent_type metadata created_at parent :
  data !! "id" = Some (PStr id) →
  data !! "chapter_id" = Some (PStr chapter_id) →
  data !! "content" = Some (PStr content) →
  data !! "status" = Some (PStr (ContentStatus.value status)) →
  data !! "agent_type" = Some (PStr (AgentType.value agent_type)) →
  data !! "metadata" = Some (PDict metadata) →
  data !! "created_at" = Some (PStr (isoformat created_at)) →
  data !! "parent_version_id" = Some (optional_str parent) →
  from_dict default_uuid uuid4 data
  = Some (ContentVersion_init uuid4 (PStr id) chapter_id content status
            agent_type metadata created_at parent).
Proof.
  intros Hid Hch Hco Hst Hag Hmd Hcr Hpa. unfold from_dict.
  rewrite Hid. cbv beta iota zeta. rewrite py_str_PStr.
  rewrite lookup_insert_ne, Hcr by done. cbv beta iota.
  rewrite fromisoformat_isoformat. cbn [mbind option_bind].
  cbv beta zeta.
  set (data' := <["created_at":=PDatetime created_at]> (<["id":=PStr id]> data)).
  assert (∀ key, key ≠ "created_at" → key ≠ "id" →
            data' !! key = data !! key) as Hother.
  { intros key ??. subst data'. by rewrite !lookup_insert_ne. }
  assert (data' !! "created_at" = Some (PDatetime created_at)) as ->
    by apply lookup_insert_eq.
  assert (data' !! "id" = Some (PStr id)) as ->
    by (subst data'; by rewrite lookup_insert_ne, lookup_insert_eq).
  rewrite (Hother "chapter_id"), (Hother "content"), (Hother "status"),
    (Hother "agent_type"), (Hother "metadata"),
    (Hother "parent_version_id") by done.
  rewrite Hch, Hco, Hst, Hag, Hmd, Hpa.
  cbn [mbind option_bind expect_str ContentStatus_call AgentType_call].
  rewrite ContentStatus_of_value_value, AgentType_of_value_value.
  cbn [mbind option_bind default]. by destruct parent.
Qed.

Lemma from_dict_to_dict_fixed default_uuid uuid4 v :
  ContentVersion.id v ≠ "" →
  _make_serializable <$> ContentVersion.metadata v
  = ContentVersion.metadata v →
  from_dict default_uuid uuid4 (to_dict v) = Some v.
Proof.
  intros Hid Hmeta.
  destruct (to_dict_lookup v) as (H1 & H2 & H3 & H4 & H5 & H6 & H7 & H8).
  rewrite (from_dict_fields _ _ _ _ _ _ _ _ _ _ _ H1 H2 H3 H4 H5 H6 H7 H8).
  f_equal. destruct v as [id ch co st ag md cr pa].
  cbn [ContentVersion.id ContentVersion.chapter_id ContentVersion.content
       ContentVersion.status ContentVersion.agent_type
       ContentVersion.metadata ContentVersion.created_at
       ContentVersion.parent_version_id] in *.
  unfold ContentVersion_init. cbn [truthy].
  apply nonempty_true in Hid. unfold nonempty in Hid. rewrite Hid.
  cbn [negb]. by rewrite !Hmeta.
Qed.

(** X12. A version built by the constructor comes back unchanged from
    [from_dict] applied to its [to_dict]. *)
Theorem from_dict_to_dict default_uuid uuid4 uuid4' id chapter_id content
    status agent_type metadata created_at parent_version_id :
  let v :=
    ContentVersion_init uuid4' id chapter_id content status agent_type
      metadata created_at parent_version_id in
  from_dict default_uuid uuid4 (to_dict v) = Some v.
Proof.
  intros v. apply from_dict_to_dict_fixed.
  - apply ContentVersion_init_id.
  - subst v. unfold ContentVersion_init. cbn [ContentVersion.metadata].
    rewrite <- map_fmap_compose. apply map_fmap_ext. intros k x _.
    by destruct (_make_serializable_facts (S (pyval_size x)) x)
      as (_ & ? & _); [lia|].
Qed.
End serialization.

(** ** Chapters *)

Lemma find_snoc {A} (p : A → bool) (l : list A) x :
  find p (l ++ [x])
  = match find p l with
    | Some y => Some y
    | None => if p x then Some x else None
    end.
Proof.
  induction l as [|y l IH]; simpl; [done|]. by destruct (p y).
Qed.

(** X13. [add_version] makes the version the current one, and
    [get_version_by_id] then resolves an id to the earliest version that
    carries it: to what it resolved to before, or else to the new version
    when that has the id. What it returns is a version of the chapter with
    the wanted id, and it returns nothing only when there is none. *)
Theorem add_version_get_version_by_id version version_id (c : Chapter.t) :
  Chapter.current_version (Chapter.add_version version c) = version
  ∧ get_version_by_id version_id (Chapter.add_version version c)
    = match get_version_by_id version_id c with
      | Some found => Some found
      | None =>
          if decide (ContentVersion.id version = version_id)
          then Some version else None
      end
  ∧ match get_version_by_id version_id c with
    | Some found =>
        found ∈ Chapter.versions c ∧ ContentVersion.id found = version_id
    | None =>
        ∀ v, v ∈ Chapter.versions c → ContentVersion.id v ≠ version_id
    end.
Proof.
  split; [done|]. unfold get_version_by_id. split.
  - cbn [Chapter.add_version Chapter.versions]. rewrite find_snoc.
    destruct (find _ (Chapter.versions c)); [done|].
    rewrite bool_decide_decide. by destruct (decide _).
  - destruct (find _ (Chapter.versions c)) as [found|] eqn:Hfind.
    + apply find_some in Hfind as [Hin Hid].
      apply list_elem_of_In in Hin. by apply bool_decide_eq_true in Hid.
    + intros v Hv Hid. apply list_elem_of_In in Hv.
      eapply find_none in Hfind; [|exact Hv].
      simpl in Hfind. by apply bool_decide_eq_false in Hfind.
Qed.

(** X14. [get_latest_human_version] returns nothing exactly when no
    version of the chapter was made by a human writer, reviewer or editor;
    otherwise it returns one of these versions, and none of them was
    created later. *)
Theorem get_latest_human_version_spec (c : Chapter.t) :
  let human v :=
    ContentVersion.agent_type v
    ∈ [AgentType.HUMAN_WRITER; AgentType.HUMAN_REVIEWER;
       AgentType.HUMAN_EDITOR] in
  match get_latest_human_version c with
  | None => ∀ v, v ∈ Chapter.versions c → ¬ human v
  | Some latest =>
      latest ∈ Chapter.versions c ∧ human latest
      ∧ ∀ v, v ∈ Chapter.versions c → human v →
          (ContentVersion.created_at v ≤ ContentVersion.created_at latest)%Z
  end.
Proof.
  intros human. unfold get_latest_human_version.
  fold human.
  destruct (filter human (Chapter.versions c)) as [|v0 rest] eqn:Hf.
  - intros v Hv Hh.
    assert (v ∈ filter human (Chapter.versions c)) as Hin
      by (by apply list_elem_of_filter).
    rewrite Hf in Hin. by apply elem_of_nil in Hin.
  - destruct (max_by_key_spec ContentVersion.created_at v0 rest)
      as [Hin Hmax].
    rewrite <- Hf in Hin, Hmax.
    apply list_elem_of_filter in Hin as [Hh Hin].
    split; [done|]. split; [done|]. intros v Hv Hhv.
    rewrite Forall_forall in Hmax. apply Hmax.
    by apply list_elem_of_filter.
Qed.

Lemma ContentStatus_of_value_Some s st :
  ContentStatus.of_value s = Some st ↔ ContentStatus.value st = s.
Proof.
  split.
  - unfold ContentStatus.of_value. intros Hfind.
    apply find_some in Hfind as [_ Hst]. by apply bool_decide_eq_true in Hst.
  - intros <-. apply ContentStatus_of_value_value.
Qed.

(** X29. [get_versions_by_status] raises on a string that is the value of
    no status; on the value of a status it returns the versions of the
    chapter with that status, in the order of the chapter, and changes
    nothing. *)
Theorem get_versions_by_status_spec status (c : Chapter.t) :
  match get_versions_by_status status c with
  | None => ∀ st, ContentStatus.value st ≠ status
  | Some found =>
      ∃ st, ContentStatus.value st = status
            ∧ found `sublist_of` Chapter.versions c
            ∧ ∀ v, v ∈ found
                   ↔ v ∈ Chapter.versions c ∧ ContentVersion.status v = st
  end.
Proof.
  unfold get_versions_by_status.
  destruct (ContentStatus.of_value status) as [st|] eqn:Hst; simpl.
  - exists st. split; [by apply ContentStatus_of_value_Some|].
    split; [apply sublist_filter|].
    intros v. rewrite list_elem_of_filter. tauto.
  - intros st Hvalue. apply ContentStatus_of_value_Some in Hvalue.
    by rewrite Hvalue in Hst.
Qed.

Lemma filter_disjoint_length {A} (P Q : A → Prop)
    `{∀ x, Decision (P x)} `{∀ x, Decision (Q x)} (l : list A) :
  (∀ x, P x → Q x → False) →
  (length (filter P l) + length (filter Q l) ≤ length l)%nat.
Proof.
  intros Hdisjoint. induction l as [|x l IH]; [done|].
  rewrite !filter_cons.
  destruct (decide (P x)) as [HP|], (decide (Q x)) as [HQ|]; simpl; try lia.
  destruct (Hdisjoint x HP HQ).
Qed.

Lemma percentage_bounds part total :
  (part ≤ total)%nat → (0 < total)%nat →
  (0 <= percentage part total)%Q ∧ (percentage part total <= 100)%Q.
Proof.
  intros Hle Hpos. unfold percentage.
  assert (0 < inject_Z (Z.of_nat total))%Q as Htotal.
  { rewrite <- (Zlt_Qlt 0). lia. }
  assert (0 <= inject_Z (Z.of_nat part))%Q as Hpart.
  { rewrite <- (Zle_Qle 0). lia. }
  assert (inject_Z (Z.of_nat part) <= inject_Z (Z.of_nat total))%Q as Hpt.
  { rewrite <- Zle_Qle. lia. }
  split.
  - apply Qmult_le_0_compat; [|done].
    apply Qle_shift_div_l; [done|]. by rewrite Qmult_0_l.
  - rewrite <- (Qmult_1_l 100) at 2.
    apply Qmult_le_compat_r; [|done].
    apply Qle_shift_div_r; [done|]. by rewrite Qmult_1_l.
Qed.

(** X30. [get_completion_status] answers for a book without chapters with
    the dictionary of zeros, and for any other book with the number of its
    chapters and the numbers of those whose current version is finalized
    and published; the two together never exceed the number of chapters,
    and each percentage lies between 0 and 100. *)
Theorem get_completion_status_spec (b : Book.t) :
  match get_completion_status b with
  | NoChapters => Book.chapters b = ∅
  | Completion total finalized published finalized_percentage
      published_percentage =>
      Book.chapters b ≠ ∅
      ∧ total = size (Book.chapters b)
      ∧ finalized = count_current_status ContentStatus.FINALIZED b
      ∧ published = count_current_status ContentStatus.PUBLISHED b
      ∧ (finalized + published ≤ total)%nat
      ∧ (0 <= finalized_percentage)%Q ∧ (finalized_percentage <= 100)%Q
      ∧ (0 <= published_percentage)%Q ∧ (published_percentage <= 100)%Q
  end.
Proof.
  unfold get_completion_status. case_bool_decide as Hsize.
  - by apply map_size_empty_iff.
  - assert (count_current_status ContentStatus.FINALIZED b
            + count_current_status ContentStatus.PUBLISHED b
            ≤ size (Book.chapters b))%nat as Hsum.
    { unfold count_current_status.
      etrans; [apply filter_disjoint_length; congruence|].
      by rewrite length_fmap, length_map_to_list. }
    split; [by rewrite <- map_size_empty_iff|].
    split; [done|]. split; [done|]. split; [done|]. split; [done|].
    destruct (percentage_bounds
                (count_current_status ContentStatus.FINALIZED b)
                (size (Book.chapters b))) as [? ?]; [lia..|].
    destruct (percentage_bounds
                (count_current_status ContentStatus.PUBLISHED b)
                (size (Book.chapters b))) as [? ?]; [lia..|].
    done.
Qed.

(** ** The review queue *)

Lemma string_length_app (s1 s2 : string) :
  String.length (s1 ++ s2) = (String.length s1 + String.length s2)%nat.
Proof.
  induction s1 as [|a s1 IH]; [by destruct s2|].
  rewrite string_app_cons. simpl. by rewrite IH.
Qed.

Lemma string_length_substring n (s : string) :
  String.length (String.substring 0 n s) = (n `min` String.length s)%nat.
Proof.
  revert s. induction n as [|n IH]; intros [|a s]; simpl; try done.
  by rewrite IH.
Qed.

Section review_queue_facts.
Context `{PyBuiltins}.

(** X15. The preview of a content of at most 200 characters is the content
    itself; that of a longer one is its first 200 characters followed by
    three dots, 203 characters in all. *)
Theorem content_preview_spec (content : string) :
  ((String.length content ≤ 200)%nat → content_preview content = content)
  ∧ ((200 < String.length content)%nat →
     content_preview content = String.substring 0 200 content ++ "..."
     ∧ String.length (content_preview content) = 203%nat)
  ∧ (String.length (content_preview content) ≤ 203)%nat.
Proof.
  unfold content_preview.
  destruct (200 <? String.length content)%nat eqn:Hlen.
  - apply Nat.ltb_lt in Hlen.
    assert (String.length (String.substring 0 200 content ++ "...")
            = 203%nat) as Hpreview.
    { rewrite string_length_app, string_length_substring.
      change (String.length "...") with 3%nat. lia. }
    split; [lia|]. split; [done|]. lia.
  - apply Nat.ltb_ge in Hlen. split; [done|]. split; lia.
Qed.

(** X16. [submit_for_human_review] returns the string of the UUID it drew
    and files a pending request under it: [get_review_details] reports it
    as pending with empty notes, [get_pending_reviews] without filters
    lists it, and no other request of either dictionary changes. *)
Theorem submit_for_human_review_spec uuid4 now chapter_id version review_type
    priority (self : HumanReviewInterface) :
  let run :=
    submit_for_human_review uuid4 now chapter_id version review_type priority
      self in
  let request :=
    ReviewRequest.mk (uuid_str uuid4) chapter_id version review_type now
      "pending" "" in
  run.1 = uuid_str uuid4
  ∧ (∃ details,
       get_review_details run.1 run.2 = Some details
       ∧ rd_status details = "pending"
       ∧ rd_reviewer_notes details = ""
       ∧ rd_chapter_id details = chapter_id
       ∧ vs_version_id (rd_version_info details) = ContentVersion.id version)
  ∧ get_pending_reviews None None run.2 !! run.1 = Some request
  ∧ (∀ id, id ≠ run.1 → pending_reviews run.2 !! id = pending_reviews self !! id)
  ∧ completed_reviews run.2 = completed_reviews self.
Proof.
  intros run request. subst run. unfold submit_for_human_review.
  cbn [fst snd pending_reviews completed_reviews].
  split; [done|]. split; [|split; [|split]].
  - unfold get_review_details. cbn [pending_reviews].
    rewrite lookup_insert_eq. by eexists.
  - unfold get_pending_reviews. cbn [pending_reviews].
    apply map_lookup_filter_Some. split; [apply lookup_insert_eq|].
    cbn [snd ReviewRequest.status filter_given]. split; [done|].
    split; by intros [? _].
  - intros id Hid. by rewrite lookup_insert_ne.
  - done.
Qed.

(** X17. A review is completed once: after [complete_review] of a pending
    review, completing the same id again returns nothing and rejecting it
    returns [False], both leaving the queue as it is, while
    [get_review_details] reports the review as completed with the feedback
    as its notes. *)
Theorem complete_review_once uuid4 completed_at now review_id updated_content
    feedback reviewer_name (self : HumanReviewInterface) :
  is_Some (pending_reviews self !! review_id) →
  let after :=
    (complete_review uuid4 completed_at now review_id updated_content
       feedback reviewer_name self).2 in
  (∀ uuid4' completed_at' now' updated_content' feedback' reviewer_name',
     complete_review uuid4' completed_at' now' review_id updated_content'
       feedback' reviewer_name' after = (None, after))
  ∧ (∀ reason, reject_review review_id reason after = (false, after))
  ∧ ∃ details,
      get_review_details review_id after = Some details
      ∧ rd_status details = "completed"
      ∧ rd_reviewer_notes details = feedback.
Proof.
  intros [review Hreview] after.
  assert (after
          = mk_interface (delete review_id (pending_reviews self))
              (<[review_id :=
                   ReviewRequest.set_reviewer_notes feedback
                     (ReviewRequest.set_status "completed" review)]>
                 (completed_reviews self))) as Hafter.
  { subst after. unfold complete_review. by rewrite Hreview. }
  clearbody after.
  assert (pending_reviews after !! review_id = None) as Hgone
    by (subst after; apply lookup_delete_eq).
  split; [|split].
  - intros. unfold complete_review. by rewrite Hgone.
  - intros. unfold reject_review. by rewrite Hgone.
  - unfold get_review_details. rewrite Hgone.
    subst after. cbn [completed_reviews]. rewrite lookup_insert_eq.
    by eexists.
Qed.

(** X18. [get_pending_reviews] returns the requests of the pending
    dictionary whose status is [pending] and which match each filter that
    is given; a filter that is [None] or the empty string is not
    applied. *)
Theorem get_pending_reviews_spec chapter_id review_type
    (self : HumanReviewInterface) id request :
  let passes (filter : option string) (value : string) :=
    filter = None ∨ filter = Some "" ∨ filter = Some value in
  get_pending_reviews chapter_id review_type self !! id = Some request
  ↔ pending_reviews self !! id = Some request
    ∧ ReviewRequest.status request = "pending"
    ∧ passes chapter_id (ReviewRequest.chapter_id request)
    ∧ passes review_type (ReviewRequest.review_type request).
Proof.
  intros passes.
  assert (∀ filter value,
            ¬ (filter_given filter = true ∧ Some value ≠ filter)
            ↔ passes filter value) as Hpasses.
  { intros [s|] value; unfold passes; cbn [filter_given].
    - destruct (nonempty s) eqn:Hs.
      + apply nonempty_true in Hs. split.
        * intros Hnot. right; right.
          destruct (decide (Some value = Some s)) as [|Hne]; [done|].
          destruct Hnot. by split.
        * intros [|[[= ->]|[= ->]]] [_ ?]; done.
      + apply nonempty_false in Hs. subst s. split; [by right; left|].
        by intros _ [? _].
    - split; [by left|]. by intros _ [? _]. }
  unfold get_pending_reviews. rewrite map_lookup_filter_Some.
  cbn [snd]. by rewrite !Hpasses.
Qed.
End review_queue_facts.

Lemma count_values_perm `{Countable K} (l l' : list K) :
  l ≡ₚ l' → count_values l = count_values l'.
Proof.
  intros Hperm. apply map_eq. intros k. rewrite !count_values_spec.
  assert (length (filter (λ x, x = k) l) = length (filter (λ x, x = k) l'))
    as -> by (by rewrite Hperm).
  destruct (decide (k ∈ l)) as [Hin|Hin], (decide (k ∈ l')) as [Hin'|Hin'];
    try done; by rewrite Hperm in Hin.
Qed.

Section review_queue_facts_2.
Context `{PyBuiltins}.

Lemma run_call_inv (q : HumanReviewInterface) call :
  queue_inv q → queue_inv (run_call q call).
Proof.
  intros [Hpending Hcompleted]. destruct call; cbn [run_call].
  - unfold submit_for_human_review. cbn [snd]. split; [|done].
    cbn [pending_reviews]. intros id r.
    destruct (decide (uuid_str uuid4 = id)) as [<-|Hne].
    + rewrite lookup_insert_eq. intros [= <-]. split; [done|by left].
    + rewrite lookup_insert_ne by done. apply Hpending.
  - unfold complete_review.
    destruct (pending_reviews q !! review_id) as [review|] eqn:Hreview;
      [|done].
    cbn [snd]. split; cbn [pending_reviews completed_reviews]; intros id r.
    + intros [_ Hr]%lookup_delete_Some. by apply Hpending.
    + destruct (decide (review_id = id)) as [<-|Hne].
      * rewrite lookup_insert_eq. intros [= <-]. split; [|done].
        by destruct (Hpending _ _ Hreview).
      * rewrite lookup_insert_ne by done. apply Hcompleted.
  - unfold reject_review.
    destruct (pending_reviews q !! review_id) as [review|] eqn:Hreview;
      [|done].
    cbn [snd]. split; [|done]. cbn [pending_reviews]. intros id r.
    destruct (decide (review_id = id)) as [<-|Hne].
    + rewrite lookup_insert_eq. intros [= <-]. split; [|by right].
      by destruct (Hpending _ _ Hreview).
    + rewrite lookup_insert_ne by done. apply Hpending.
Qed.

(** X19. In every queue that calls of [submit_for_human_review],
    [complete_review] and [reject_review] build from the empty one, each
    request is filed under its own id, the pending dictionary holds only
    pending and rejected requests, and the completed dictionary only
    completed ones. *)
Theorem run_calls_inv (calls : list queue_call) : queue_inv (run_calls calls).
Proof.
  unfold run_calls.
  assert (queue_inv HumanReviewInterface_init) as Hinit.
  { split; intros id r Hr; cbn in Hr; by rewrite lookup_empty in Hr. }
  revert Hinit. generalize HumanReviewInterface_init.
  induction calls as [|call calls IH]; intros q Hq; [done|].
  simpl. by apply IH, run_call_inv.
Qed.

Lemma ContentVersion_init_uuid_id uuid4 chapter_id content status agent_type
    metadata created_at parent_version_id :
  ContentVersion.id
    (ContentVersion_init uuid4 (PStr (uuid_str uuid4)) chapter_id content
       status agent_type metadata created_at parent_version_id)
  = uuid_str uuid4.
Proof.
  unfold ContentVersion_init. cbn [ContentVersion.id truthy].
  pose proof (uuid_str_nonempty uuid4) as Hne.
  apply nonempty_true in Hne. unfold nonempty in Hne. by rewrite Hne.
Qed.

(** X20. [review_content] never reports changes: whatever the queue holds,
    it files a pending request for a new version of the content under the
    title as chapter id, and answers that the review is pending, with the
    content it was given and the id of the request. *)
Theorem review_content_reports_pending version_uuid review_uuid created_at
    submitted_at title content description (self : HumanReviewInterface) :
  let run :=
    review_content version_uuid review_uuid created_at submitted_at title
      content description self in
  run.1
  = mk_review_feedback false "Review pending" content None
      (Some (uuid_str review_uuid))
  ∧ ∃ request,
      pending_reviews run.2 !! uuid_str review_uuid = Some request
      ∧ ReviewRequest.status request = "pending"
      ∧ ReviewRequest.chapter_id request = title
      ∧ ContentVersion.content (ReviewRequest.version request) = content
      ∧ ContentVersion.id (ReviewRequest.version request)
        = uuid_str version_uuid.
Proof.
  intros run. subst run. unfold review_content, submit_for_human_review.
  cbn [fst snd]. unfold get_review_details. cbn [pending_reviews].
  rewrite lookup_insert_eq. cbn [rd_status ReviewRequest.status].
  rewrite bool_decide_eq_false_2 by done. cbn [fst snd pending_reviews].
  split; [done|]. eexists. split; [apply lookup_insert_eq|].
  cbn [ReviewRequest.status ReviewRequest.chapter_id ReviewRequest.version].
  split; [done|]. split; [done|]. split; [done|].
  apply ContentVersion_init_uuid_id.
Qed.

(** X21. Rejecting a review does not show in [get_review_statistics]: the
    rejected request still counts as pending, in the total and under its
    type. *)
Theorem get_review_statistics_after_reject review_id reason
    (self : HumanReviewInterface) :
  get_review_statistics (reject_review review_id reason self).2
  = get_review_statistics self.
Proof.
  unfold reject_review.
  destruct (pending_reviews self !! review_id) as [review|] eqn:Hreview;
    [|done].
  cbn [snd]. unfold get_review_statistics.
  cbn [pending_reviews completed_reviews].
  set (review' := ReviewRequest.set_reviewer_notes reason
                    (ReviewRequest.set_status "rejected" review)).
  assert (∀ m : gmap string ReviewRequest.t,
            ReviewRequest.review_type <$> requests m
            ≡ₚ snd <$> map_to_list (ReviewRequest.review_type <$> m))
    as Htypes.
  { intros m. unfold requests. rewrite map_to_list_fmap.
    rewrite <- !list_fmap_compose. by apply reflexive_eq, list_fmap_ext. }
  assert (ReviewRequest.review_type <$> <[review_id:=review']>
                                          (pending_reviews self)
          = ReviewRequest.review_type <$> pending_reviews self) as Hsame.
  { rewrite fmap_insert. apply insert_id.
    by rewrite lookup_fmap, Hreview. }
  assert (count_values
            (ReviewRequest.review_type
               <$> requests (<[review_id:=review']> (pending_reviews self)))
          = count_values
              (ReviewRequest.review_type <$> requests (pending_reviews self)))
    as ->.
  { apply count_values_perm. by rewrite !Htypes, Hsame. }
  f_equal. apply map_size_insert_Some. by eexists.
Qed.
End review_queue_facts_2.

(** ** Feedback sessions *)

Section human_feedback_facts.
Context `{PyBuiltins}.

(** X22. [provide_feedback] raises when no session is active. With a
    session whose review is pending it completes the review, with the
    given content or, when none or an empty one is given, with the preview
    of the content under review; it returns the id of the new version and
    closes the session. With a session whose review is not pending it
    reports a failure and leaves the queue and the session as they
    are. *)
Theorem provide_feedback_spec uuid4 completed_at now feedback updated_content
    (self : HumanFeedback) :
  match current_session self with
  | None =>
      provide_feedback uuid4 completed_at now feedback updated_content self
      = None
  | Some session =>
      match
        pending_reviews (review_interface self) !! rs_review_id session
      with
      | Some review =>
          let content :=
            if filter_given updated_content then default "" updated_content
            else content_preview
                   (ContentVersion.content (ReviewRequest.version review)) in
          provide_feedback uuid4 completed_at now feedback updated_content
            self
          = Some (FeedbackGiven (rs_review_id session)
                    (String.length feedback)
                    (negb (bool_decide (content = rs_content session)))
                    (uuid_str uuid4),
                  mk_human_feedback
                    (complete_review uuid4 completed_at now
                       (rs_review_id session) content feedback
                       "Human Reviewer" (review_interface self)).2
                    None)
      | None =>
          ∃ error,
            provide_feedback uuid4 completed_at now feedback updated_content
              self
            = Some (FeedbackFailed error (rs_review_id session), self)
      end
  end.
Proof.
  unfold provide_feedback.
  destruct (current_session self) as [session|]; [|done].
  destruct (pending_reviews (review_interface self) !! rs_review_id session)
    as [review|] eqn:Hreview.
  - cbv zeta.
    assert (get_review_details (rs_review_id session) (review_interface self)
            = Some (mk_review_details (rs_review_id session)
                      (ReviewRequest.chapter_id review)
                      (ReviewRequest.review_type review)
                      (ReviewRequest.status review)
                      (isoformat (ReviewRequest.submitted_at review))
                      (mk_version_summary
                         (ContentVersion.id (ReviewRequest.version review))
                         (ContentStatus.value
                            (ContentVersion.status
                               (ReviewRequest.version review)))
                         (AgentType.value
                            (ContentVersion.agent_type
                               (ReviewRequest.version review)))
                         (isoformat
                            (ContentVersion.created_at
                               (ReviewRequest.version review)))
                         (String.length
                            (ContentVersion.content
                               (ReviewRequest.version review)))
                         (content_preview
                            (ContentVersion.content
                               (ReviewRequest.version review))))
                      (ReviewRequest.reviewer_notes review))) as ->.
    { unfold get_review_details. by rewrite Hreview. }
    destruct (filter_given updated_content);
      cbn [fmap option_fmap option_map rd_version_info vs_content_preview];
      unfold complete_review; rewrite Hreview; cbn [fst snd];
      by rewrite ContentVersion_init_uuid_id.
  - destruct (filter_given updated_content).
    + exists FailedToCompleteReview. unfold complete_review.
      by rewrite Hreview.
    + destruct (get_review_details _ _); cbn [fmap option_fmap option_map].
      * exists FailedToCompleteReview. unfold complete_review.
        by rewrite Hreview.
      * by exists NoReviewDetails.
Qed.
End human_feedback_facts.

(** ** The research and drafting phases *)

Section workflow_facts.
Context `{PyBuiltins}.

(** X23. [_research_chapter] succeeds exactly when the provider returns a
    non-empty text and the chapter has a non-empty id. It then records the
    new version, whose id is the UUID drawn, as the chapter's research
    version, appends it to the chapter's versions and makes it current, and
    adds it to a store that does not hold its id yet. In every other case
    it returns [False] and leaves the chapter and the store as they
    are. *)
Theorem _research_chapter_spec research_topic uuid4 now chapter
    (c : collection) :
  let run := _research_chapter research_topic uuid4 now chapter c in
  let succeeds content :=
    nonempty content && nonempty (Chapter.id chapter) in
  match
    research_topic (Chapter.title chapter) (Chapter.keywords chapter)
      (Chapter.research_sources chapter)
  with
  | ResearchReturned content metadata =>
      if succeeds content then
        ∃ version,
          version
          = ContentVersion.mk (uuid_str uuid4) (Chapter.id chapter) content
              ContentStatus.SCRAPED AgentType.SCRAPER
              (_make_serializable <$> metadata) now None
          ∧ (result run).1 = true
          ∧ Chapter.research_version_id (result run).2
            = Some (uuid_str uuid4)
          ∧ Chapter.versions (result run).2
            = (Chapter.versions chapter ++ [version])%list
          ∧ Chapter.current_version (result run).2 = version
          ∧ Chapter.current_phase (result run).2
            = Chapter.current_phase chapter
          ∧ (c !! uuid_str uuid4 = None →
             final run = <[uuid_str uuid4 := chroma_record version]> c)
      else run = Outcome (false, chapter) c []
  | ResearchRaised => run = Outcome (false, chapter) c []
  end.
Proof.
  intros run succeeds. subst run succeeds. unfold _research_chapter.
  destruct (research_topic _ _ _) as [|content metadata]; [done|].
  destruct (nonempty content) eqn:Hcontent; cbn [negb andb]; [|done].
  set (version := ContentVersion_init _ _ _ _ _ _ _ _ _).
  assert (version
          = ContentVersion.mk (uuid_str uuid4) (Chapter.id chapter) content
              ContentStatus.SCRAPED AgentType.SCRAPER
              (_make_serializable <$> metadata) now None) as Hversion.
  { subst version. unfold ContentVersion_init. cbn [truthy].
    pose proof (uuid_str_nonempty uuid4) as Hne.
    apply nonempty_true in Hne. unfold nonempty in Hne. by rewrite Hne. }
  clearbody version. unfold mbind, Store_bind.
  destruct (nonempty (Chapter.id chapter)) eqn:Hid.
  - rewrite save_version_valid.
    2:{ subst version. split; [apply uuid_str_nonempty|].
        split; by apply nonempty_true. }
    cbn [result final trace negb mret Store_ret fst snd].
    exists version. split; [done|].
    cbn [Chapter.add_version Chapter.set_research_version_id
         Chapter.research_version_id Chapter.versions
         Chapter.current_version Chapter.current_phase].
    split; [done|]. split; [by rewrite Hversion|].
    split; [done|]. split; [done|]. split; [done|].
    intros Hfresh. unfold Chroma.add.
    assert (ContentVersion.id version = uuid_str uuid4) as ->
      by (by rewrite Hversion).
    by rewrite Hfresh.
  - rewrite save_version_invalid.
    2:{ intros (_ & Hne & _). subst version. cbn in Hne.
        by apply nonempty_true in Hne; rewrite Hid in Hne. }
    done.
Qed.

Lemma gather_research_lookup research_topic uuid4 now i chapters
    (c : collection) :
  Forall2 (λ chapter r, ∃ j c', r = (Returned (result (_research_chapter
             research_topic (uuid4 j) (now j) chapter c')).1,
             (result (_research_chapter research_topic (uuid4 j) (now j)
                        chapter c')).2))
    chapters
    (result (gather_research research_topic uuid4 now i chapters c)).
Proof.
  revert i c. induction chapters as [|chapter chapters IH]; intros i c.
  { constructor. }
  cbn [gather_research]. unfold mbind, Store_bind, mret, Store_ret.
  cbn [result]. constructor; [by exists i, c|]. apply IH.
Qed.

Lemma _research_chapter_keeps research_topic uuid4 now chapter
    (c : collection) :
  let after := (result (_research_chapter research_topic uuid4 now chapter
                          c)).2 in
  Chapter.id after = Chapter.id chapter
  ∧ Chapter.title after = Chapter.title chapter
  ∧ (match
        research_topic (Chapter.title chapter) (Chapter.keywords chapter)
          (Chapter.research_sources chapter)
      with
      | ResearchRaised => True
      | ResearchReturned content _ => content = ""
      end → after = chapter).
Proof.
  unfold _research_chapter.
  destruct (research_topic _ _ _) as [|content metadata]; [done|].
  destruct (nonempty content) eqn:Hcontent; cbn [negb].
  - unfold mbind, Store_bind.
    destruct (result (save_version _ c)); cbn [negb]; repeat split; try done;
      intros ->; done.
  - done.
Qed.

Lemma _research_phase_each research_topic uuid4 now chapters
    (c : collection) :
  Forall2
    (λ chapter after,
       Chapter.id after = Chapter.id chapter
       ∧ Chapter.title after = Chapter.title chapter
       ∧ Chapter.current_phase after = PublicationPhase.DRAFTING
       ∧ (match
            research_topic (Chapter.title chapter) (Chapter.keywords chapter)
              (Chapter.research_sources chapter)
          with
          | ResearchRaised => True
          | ResearchReturned content _ => content = ""
          end →
          after
          = Chapter.set_current_phase PublicationPhase.DRAFTING chapter))
    chapters
    (result (_research_phase research_topic uuid4 now chapters c)).
Proof.
  unfold _research_phase, mbind, Store_bind, mret, Store_ret.
  cbn [result]. apply Forall2_fmap_r.
  eapply Forall2_impl; [apply gather_research_lookup|].
  intros chapter r (j & c' & ->). unfold check_result. cbn [fst snd].
  destruct (_research_chapter_keeps research_topic (uuid4 j) (now j) chapter
              c') as (Hid & Htitle & Hsame).
  split; [done|]. split; [done|]. split; [done|].
  intros Hfails. by rewrite Hsame.
Qed.

(** X24. [_research_phase] returns the chapters it was given, in their
    order and with their ids and titles, each in the drafting phase; a
    chapter whose research raised or returned no text is unchanged but for
    the phase. *)
Theorem _research_phase_spec research_topic uuid4 now chapters
    (c : collection) :
  Forall2
    (λ chapter after,
       Chapter.id after = Chapter.id chapter
       ∧ Chapter.title after = Chapter.title chapter
       ∧ Chapter.current_phase after = PublicationPhase.DRAFTING
       ∧ (match
            research_topic (Chapter.title chapter) (Chapter.keywords chapter)
              (Chapter.research_sources chapter)
          with
          | ResearchRaised => True
          | ResearchReturned content _ => content = ""
          end →
          after
          = Chapter.set_current_phase PublicationPhase.DRAFTING chapter))
    chapters
    (result (_research_phase research_topic uuid4 now chapters c)).
Proof. apply _research_phase_each. Qed.

Section drafting.
Variable generate_content :
  string → string → Z → string → generation_outcome.
Variable word_count : string → Z.

Lemma _draft_chapter_cases stored_uuid uuid4 now chapter (c : collection) :
  let run :=
    _draft_chapter generate_content word_count stored_uuid uuid4 now chapter
      c in
  (∃ c' tr, run = Outcome (false, mk_drafting_chapter chapter None) c' tr)
  ∨ (is_Some (Chapter.research_version_id chapter)
     ∧ ∃ id c' tr,
         run = Outcome (true, mk_drafting_chapter chapter (Some id)) c' tr).
Proof.
  intros run. subst run. unfold _draft_chapter, get_version_of.
  unfold mbind, Store_bind, mret, Store_ret.
  destruct (Chapter.research_version_id chapter) as [id|].
  2:{ left. by eexists _, _. }
  destruct (get_version stored_uuid id c) as [[research|] c' tr];
    cbn [result final trace].
  2:{ left. by eexists _, _. }
  destruct (generate_content _ _ _ _) as [|draft].
  { left. by eexists _, _. }
  destruct (nonempty draft); cbn [negb].
  2:{ left. by eexists _, _. }
  right. split; [by eexists|]. cbn [result final trace].
  by eexists _, _, _.
Qed.

Lemma _draft_chapter_facts stored_uuid uuid4 now chapter (c : collection) :
  let run :=
    _draft_chapter generate_content word_count stored_uuid uuid4 now chapter
      c in
  dc_chapter (result run).2 = chapter
  ∧ ((result run).1 = true →
     is_Some (dc_draft_version_id (result run).2)
     ∧ is_Some (Chapter.research_version_id chapter))
  ∧ ((result run).1 = false → dc_draft_version_id (result run).2 = None).
Proof.
  intros run.
  destruct (_draft_chapter_cases stored_uuid uuid4 now chapter c)
    as [(c' & tr & Hrun)|(Hsome & id & c' & tr & Hrun)];
    fold run in Hrun; rewrite Hrun;
    cbn [result fst snd dc_chapter dc_draft_version_id].
  - done.
  - split; [done|]. split; [|done]. intros _. split; [by eexists|done].
Qed.

Lemma drafting_loop_each stored_uuid uuid4 now i chapters failed
    (c : collection) :
  let run :=
    drafting_loop generate_content word_count stored_uuid uuid4 now i
      chapters failed c in
  Forall2 drafted chapters (result run).1
  ∧ ((result run).2 + failed_among chapters
     = failed + failed_among (dc_chapter <$> (result run).1))%nat.
Proof.
  revert i failed c.
  induction chapters as [|chapter chapters IH]; intros i failed c.
  { split; [constructor|]. cbn. lia. }
  cbn [drafting_loop].
  destruct (decide (Chapter.current_phase chapter
                    = PublicationPhase.DRAFTING)) as [Hphase|Hphase].
  - rewrite bool_decide_eq_false_2 by (by intros ?).
    unfold mbind, Store_bind, mret, Store_ret. cbn [result final fst snd].
    set (one := _draft_chapter _ _ _ _ _ _ _).
    destruct (_draft_chapter_facts (stored_uuid i) (uuid4 i) (now i) chapter
                c) as (Hsame & Hok & Hfail).
    fold one in Hsame, Hok, Hfail.
    destruct (IH (S i) (if (result one).1 then failed else S failed)
                (final one)) as [Hall Hcount].
    cbv zeta in Hall, Hcount. rewrite Hsame. split.
    + constructor; [|exact Hall]. unfold drafted.
      rewrite decide_True by done. cbn [dc_chapter dc_draft_version_id].
      destruct ((result one).1) eqn:Hres;
        [left|right; by split; [|apply Hfail]].
      split; [done|]. by apply Hok.
    + rewrite fmap_cons. unfold failed_among in *. rewrite !filter_cons.
      cbn [dc_chapter].
      rewrite decide_False by (by rewrite Hphase).
      destruct ((result one).1); cbn [Chapter.set_current_phase
        Chapter.current_phase].
      * rewrite decide_False by done. lia.
      * rewrite decide_True by done. cbn [length]. lia.
  - rewrite bool_decide_eq_true_2 by done.
    unfold mbind, Store_bind, mret, Store_ret. cbn [result final fst snd].
    destruct (IH (S i) failed c) as [Hall Hcount].
    cbv zeta in Hall, Hcount. split.
    + constructor; [|exact Hall]. unfold drafted.
      by rewrite decide_False.
    + rewrite fmap_cons. unfold failed_among in *. rewrite !filter_cons.
      cbn [dc_chapter].
      destruct (decide (Chapter.current_phase chapter
                        = PublicationPhase.FAILED)); cbn [length]; lia.
Qed.

(** X25. [_drafting_phase] leaves a chapter that is not in the drafting
    phase as it is. A chapter in the drafting phase goes on to spinning,
    with a draft version id, which takes a research version id, or it
    fails, with no draft version id; nothing else of the chapter changes.
    The counter of failed chapters grows by the number of chapters that
    fail in this phase. *)
Theorem _drafting_phase_spec stored_uuid uuid4 now chapters failed
    (c : collection) :
  let run :=
    _drafting_phase generate_content word_count stored_uuid uuid4 now
      chapters failed c in
  Forall2 drafted chapters (result run).1
  ∧ ((result run).2 + failed_among chapters
     = failed + failed_among (dc_chapter <$> (result run).1))%nat.
Proof. apply drafting_loop_each. Qed.

End drafting.
End workflow_facts.

(** ** The further properties on the sample chapter *)

(** The store that holds the research text alone holds nothing else. *)
Lemma Sample_store1_only w :
  Sample.store1 !! ContentVersion.id w = Some (chroma_record w) →
  ContentVersion.id w = "v1" ∧ ContentVersion.created_at w = 1%Z.
Proof.
  intros Hw.
  assert (ContentVersion.id w = "v1") as Hid.
  { destruct (decide (ContentVersion.id w = "v1")) as [|Hne]; [done|].
    unfold Sample.store1 in Hw.
    rewrite save_version_valid in Hw by (by repeat split).
    cbn [final] in Hw. unfold Chroma.add in Hw. rewrite lookup_empty in Hw.
    rewrite lookup_insert_ne in Hw by done. by rewrite lookup_empty in Hw. }
  split; [done|].
  rewrite Hid, Sample_store1_v1 in Hw. injection Hw as Hcontent Hmeta.
  assert (ContentVersion.id w ≠ "") as Hne by (by rewrite Hid).
  pose proof (reconstruct_chroma_record 0%N w Hne) as Hrw.
  rewrite <- Hcontent, <- Hmeta in Hrw.
  rewrite (reconstruct_chroma_record 0%N Sample.v1) in Hrw by done.
  apply (inj Some) in Hrw.
  by apply (f_equal ContentVersion.created_at) in Hrw.
Qed.

(** The research text is what [get_chapter_versions] lists for the sample
    chapter once it is saved. *)
Lemma get_chapter_versions_stored_witness :
  stored_version Sample.v1
  ∈ result (get_chapter_versions 0%N "ch1" Sample.store1).
Proof.
  apply (get_chapter_versions_stored 0%N "ch1" Sample.store1).
  - apply save_version_wf, store_wf_empty.
  - exists Sample.v1. split; [exact Sample_store1_v1|done].
Defined.

(** The draft is not in the store that holds the research text alone, and
    its status cannot be updated there. *)
Lemma update_version_status_unknown_id_witness :
  update_version_status 0%N "v2" ContentStatus.PUBLISHED Sample.store1
  = Outcome false Sample.store1 [].
Proof.
  apply update_version_status_unknown_id.
  destruct (Sample.store1 !! "v2") as [r|] eqn:Hr; [|done].
  destruct (save_version_wf Sample.v1 ∅ store_wf_empty "v2" r Hr)
    as (w & _ & Hid & ->).
  rewrite <- Hid in Hr. by destruct (Sample_store1_only w Hr) as [Hw _];
    rewrite Hw in Hid.
Defined.

(** Publishing the stored research text changes its status and nothing
    else of what [get_version] returns. *)
Lemma update_version_status_then_get_version_witness :
  ∃ v,
    result (get_version 0%N "v1" Sample.store1) = Some v
    ∧ result (get_version 1%N "v1"
                (final (update_version_status 0%N "v1"
                          ContentStatus.PUBLISHED Sample.store1)))
      = Some (ContentVersion.set_status ContentStatus.PUBLISHED v).
Proof.
  apply update_version_status_then_get_version.
  - apply save_version_wf, store_wf_empty.
  - rewrite Sample_store1_v1. by eexists.
Defined.

(** The draft, saved after the research text, is the latest version of the
    sample chapter. *)
Lemma save_version_then_get_latest_version_witness :
  result (get_latest_version 0%N "ch1" None
            (final (save_version Sample.v2 Sample.store1)))
  = Some (stored_version Sample.v2)
  ∧ result (get_version 0%N "v2"
              (final (save_version Sample.v2 Sample.store1)))
    = Some (stored_version Sample.v2).
Proof.
  apply (save_version_then_get_latest_version 0%N Sample.v2 Sample.store1).
  - apply save_version_wf, store_wf_empty.
  - by repeat split.
  - destruct (Sample.store1 !! ContentVersion.id Sample.v2) as [r|] eqn:Hr;
      [|done].
    destruct (save_version_wf Sample.v1 ∅ store_wf_empty _ r Hr)
      as (w & _ & Hid & ->).
    rewrite <- Hid in Hr. by destruct (Sample_store1_only w Hr) as [Hw _];
      rewrite Hw in Hid.
  - intros w Hw _. destruct (Sample_store1_only w Hw) as [_ ->]. done.
Defined.

(** The sample request, once completed, can be neither rejected nor
    completed again. *)
Lemma complete_review_once_witness :
  reject_review "r1" "too late"
    (complete_review 7%N 10%Z 11%Z "r1" "Final text" "looks good" "Alice"
       Sample.queue).2
  = (false,
     (complete_review 7%N 10%Z 11%Z "r1" "Final text" "looks good" "Alice"
        Sample.queue).2).
Proof.
  assert (is_Some (pending_reviews Sample.queue !! "r1")) as Hpending.
  { exists Sample.pending_request. apply lookup_singleton_eq. }
  pose proof (complete_review_once 7%N 10%Z 11%Z "r1" "Final text"
                "looks good" "Alice" Sample.queue Hpending) as Honce.
  cbv zeta in Honce. destruct Honce as (_ & Hreject & _).
  exact (Hreject "too late").
Defined.
